(** * ng-packagr — the stylesheet processor worker

    A shallow embedding of [src/lib/styles/stylesheet-processor-worker.ts]:
    the dialect renderer [renderCss], the postcss pipeline assembly
    [optimizeCss], the job [processCss] and the [parentPort] message handler
    that posts the result and signals the blocked main thread.

    JavaScript strings are modelled as [string]; the Int32Array behind the
    completion signal as a [list Z] of 32-bit two's complement integers;
    [async] functions as a state-and-exception monad over the part of the
    world the worker can touch (reply port, signal buffer) plus a
    chronological log of every call that leaves the worker. *)

From Stdlib Require Import String Ascii List ZArith Lia Bool.
From stdpp Require Import base list strings gmap.
Import ListNotations.
Local Open Scope string_scope.
Local Open Scope Z_scope.

(** ** JavaScript strings *)

Module JsString.

(** [s.indexOf(pat)] from position 0: the first index at which [pat]
    occurs in [s]; the empty pattern is found at 0. *)
Fixpoint indexOf (s pat : string) : option nat :=
  if String.prefix pat s then Some 0%nat
  else match s with
       | EmptyString => None
       | String _ rest => option_map S (indexOf rest pat)
       end.

(** [s.slice(from, to)] for [0 <= from], [0 <= to]. *)
Definition slice (s : string) (from to : nat) : string :=
  String.substring from (to - from) s.

(** [s.replace(pat, by)] with a string pattern: only the FIRST occurrence
    of [pat] is replaced; when there is none the string is returned as it
    is. The replacement is inserted literally, which is what JavaScript
    does for a replacement without a dollar sign (the worker only passes
    '.css'). *)
Definition replace (s pat by_ : string) : string :=
  match indexOf s pat with
  | None => s
  | Some i =>
      slice s 0 i ++ by_ ++ slice s (i + String.length pat) (String.length s)
  end.

End JsString.

(** ** Node's [path] module (posix flavour) *)

Module path.

Record scan := {
  startDot : Z;
  startPart : Z;
  end_ : Z;
  matchedSlash : bool;
  preDotState : Z
}.

Definition scan0 : scan :=
  {| startDot := -1; startPart := 0; end_ := -1;
     matchedSlash := true; preDotState := 0 |}.

Definition CHAR_FORWARD_SLASH : ascii := "/"%char.
Definition CHAR_DOT : ascii := "."%char.

(** The body of [for (let i = path.length - 1; i >= 0; --i)] in
    [path.extname]; [n] is [i + 1], so that the loop ends at [n = 0]. *)
Fixpoint extname_loop (p : string) (n : nat) (st : scan) : scan :=
  match n with
  | O => st
  | S i =>
      match String.get i p with
      | None => st
      | Some code =>
          if Ascii.eqb code CHAR_FORWARD_SLASH then
            if negb (matchedSlash st) then
              (* a separator that is not part of the trailing ones: break *)
              {| startDot := startDot st; startPart := Z.of_nat i + 1;
                 end_ := end_ st; matchedSlash := matchedSlash st;
                 preDotState := preDotState st |}
            else extname_loop p i st
          else
            let st1 :=
              if end_ st =? -1 then
                {| startDot := startDot st; startPart := startPart st;
                   end_ := Z.of_nat i + 1; matchedSlash := false;
                   preDotState := preDotState st |}
              else st in
            let st2 :=
              if Ascii.eqb code CHAR_DOT then
                if startDot st1 =? -1 then
                  {| startDot := Z.of_nat i; startPart := startPart st1;
                     end_ := end_ st1; matchedSlash := matchedSlash st1;
                     preDotState := preDotState st1 |}
                else if negb (preDotState st1 =? 1) then
                  {| startDot := startDot st1; startPart := startPart st1;
                     end_ := end_ st1; matchedSlash := matchedSlash st1;
                     preDotState := 1 |}
                else st1
              else if negb (startDot st1 =? -1) then
                {| startDot := startDot st1; startPart := startPart st1;
                   end_ := end_ st1; matchedSlash := matchedSlash st1;
                   preDotState := -1 |}
              else st1 in
            extname_loop p i st2
      end
  end.

(** [path.extname(p)]: from the last dot of the last path component to
    its end; empty when there is no dot, when the component starts with
    its only dot, or when the component is '..'. *)
Definition extname (p : string) : string :=
  let st := extname_loop p (String.length p) scan0 in
  if (startDot st =? -1) || (end_ st =? -1) || (preDotState st =? 0)
     || ((preDotState st =? 1) && (startDot st =? end_ st - 1)
         && (startDot st =? startPart st + 1))
  then ""
  else JsString.slice p (Z.to_nat (startDot st)) (Z.to_nat (end_ st)).

End path.

(** ** Values that cross the worker's boundary *)

(** What a JavaScript call leaves behind: a value, or a thrown error (for an
    awaited promise: fulfilled or rejected). *)
Inductive JsError :=
| Error (message : string)
| TypeError (message : string)
| RangeError (message : string).

Inductive Completion (A : Type) :=
| Normal (a : A)
| Throw (e : JsError).
Arguments Normal {A} a.
Arguments Throw {A} e.

(** Modelled from the spec: the [CssUrl] enum is declared in
    [./stylesheet-processor], which is not part of the sources at hand; the
    job description lists the modes none, inline and rebase-relative. *)
Inductive CssUrl := none | inline | rebase_relative.

#[global] Instance CssUrl_eq_dec : EqDecision CssUrl.
Proof. solve_decision. Defined.

Module Sass.
(** A Sass importer: (url, prev) to the file it resolves to. *)
Definition Importer := string -> string -> option string.
Record Options := {
  file : string;
  data : string;
  indentedSyntax : bool;
  importer : Importer;
  includePaths : option (list string)
}.
(** [renderSync(options).css.toString()] *)
Record Result := { css : string }.
Record Compiler := { renderSync : Options -> Completion Result }.
End Sass.

Module Less.
Record Options := {
  filename : string;
  javascriptEnabled : bool;
  paths : option (list string)
}.
Record Output := { css : string }.
Record Engine := { render : string -> Options -> Completion Output }.
End Less.

Module Stylus.
Inductive Value :=
| VStr (s : string)
| VBool (b : bool)
| VList (l : list string).

(** [stylus.resolver(options)]: the url() function of the engine. *)
Inductive Fn := resolver (options : option (list (string * Value))).

(** The renderer object [stylus(str)], configured by chained calls. *)
Record Renderer := {
  str : string;
  options : gmap string Value;
  functions : gmap string Fn
}.

Definition create (s : string) : Renderer :=
  {| str := s; options := ∅; functions := ∅ |}.
Definition set (key : string) (val : Value) (r : Renderer) : Renderer :=
  {| str := str r; options := <[key := val]> (options r);
     functions := functions r |}.
Definition define (name : string) (fn : Fn) (r : Renderer) : Renderer :=
  {| str := str r; options := options r;
     functions := <[name := fn]> (functions r) |}.

Record Engine := { render : Renderer -> Completion string }.
End Stylus.

Module Postcss.
(** A plugin is represented by the factory called and the configuration
    object handed to it. *)
Record UrlOptions := { url : option CssUrl }.
Record PresetEnvOptions := {
  browsers : list string;
  autoprefixer : bool;
  stage : Z
}.
(** [preset: [name, overrides]]: a named profile and the optimisations
    switched on or off on top of it. *)
Record CssnanoOptions := { preset : string * list (string * bool) }.

Inductive Plugin :=
| postcssUrl (o : UrlOptions)
| postcssPresetEnv (o : PresetEnvOptions)
| cssnano (o : CssnanoOptions).

Record ProcessOptions := { from : string; to : string }.

(** A warning, as far as the worker looks at it: its [toString()]. *)
Record Warning := { toString : string }.
Record Result := { css : string; warnings : list Warning }.

(** [postcss(plugins).process(css, opts)]: nothing runs until the lazy
    result is awaited. *)
Record LazyResult := {
  plugins : list Plugin;
  input : string;
  opts : ProcessOptions
}.
End Postcss.

Record WorkerOptions := {
  filePath : string;
  basePath : string;
  browserslistData : list string;
  cssUrl : option CssUrl;
  styleIncludePaths : option (list string)
}.

Record WorkerResult := {
  css : string;
  warnings : list string
}.

(** The external collaborators of one worker: the file reader
    ([readFile(path, encoding)] of [../utils/fs], which fails on an I/O
    error), the modules [require] and [import()] can resolve (a module that
    is not installed throws), and the postcss runner. *)
Record Collaborators := {
  readFile : string -> string -> Completion string;
  node_sass : Completion Sass.Compiler;
  sass : Completion Sass.Compiler;
  node_sass_tilde_importer : Completion Sass.Importer;
  less : Completion Less.Engine;
  stylus : Completion Stylus.Engine;
  postcss_run : Postcss.LazyResult -> Completion Postcss.Result
}.

(** ** The world of one job *)

Inductive Event :=
| EvReadFile (file encoding : string)
| EvRequire (module : string)
| EvImport (module : string)
| EvSassRenderSync (module : string) (o : Sass.Options)
| EvLessRender (input : string) (o : Less.Options)
| EvStylusRender (r : Stylus.Renderer)
| EvPostcssProcess (l : Postcss.LazyResult)
| EvPostMessage (m : WorkerResult)
| EvPortClose
| EvAtomicsAdd (index : nat) (value : Z)
| EvAtomicsNotify (index : nat).

Record MessagePort := {
  queue : list WorkerResult;
  closed : bool
}.

Record World := {
  port : MessagePort;       (* the reply channel of the job *)
  signal : list Z;          (* the Int32Array lent by the main thread *)
  waiters : list nat;       (* indices of [signal] some agent sleeps on *)
  log : list Event          (* every call made so far, oldest first *)
}.

(** The world [w] after the calls [evs], none of which touched the port,
    the signal or the sleepers. *)
Definition logged (w : World) (evs : list Event) : World :=
  {| port := port w; signal := signal w; waiters := waiters w;
     log := log w ++ evs |}.

(** ** Async functions: state and exceptions *)

Definition Async (A : Type) : Type := World -> Completion A * World.

#[global] Instance Async_ret : MRet Async :=
  fun A a w => (Normal a, w).
#[global] Instance Async_bind : MBind Async :=
  fun A B f m w =>
    match m w with
    | (Normal a, w') => f a w'
    | (Throw e, w') => (Throw e, w')
    end.
#[global] Instance Async_throw : MThrow JsError Async :=
  fun A e w => (Throw e, w).

(** [try { m } catch { h }] *)
Definition try_catch {A} (m : Async A) (h : Async A) : Async A :=
  fun w =>
    match m w with
    | (Normal a, w') => (Normal a, w')
    | (Throw _, w') => h w'
    end.

(** A call to a collaborator: it is logged, then completes as the
    collaborator says. *)
Definition call {A} (ev : Event) (c : Completion A) : Async A :=
  fun w => (c, logged w [ev]).

(** ** The reply port and the shared signal *)

Definition wrap_int32 (z : Z) : Z := (z + 2 ^ 31) mod 2 ^ 32 - 2 ^ 31.

Module MessagePort_.
(** [port.postMessage(m)]: queued for the other side; a port that has
    been closed drops the message silently. *)
Definition postMessage (m : WorkerResult) : Async unit :=
  fun w =>
    (Normal tt,
     {| port := if closed (port w) then port w
                else {| queue := queue (port w) ++ [m]; closed := false |};
        signal := signal w; waiters := waiters w;
        log := log w ++ [EvPostMessage m] |}).

(** [port.close()] *)
Definition close : Async unit :=
  fun w =>
    (Normal tt,
     {| port := {| queue := queue (port w); closed := true |};
        signal := signal w; waiters := waiters w;
        log := log w ++ [EvPortClose] |}).
End MessagePort_.

Module Atomics.
(** [Atomics.add(signal, index, value)]: a RangeError outside the array;
    otherwise the cell is replaced by the wrapped sum and the old value
    is returned. The log records the additions performed. *)
Definition add (index : nat) (value : Z) : Async Z :=
  fun w =>
    match signal w !! index with
    | None => (Throw (RangeError "Invalid atomic access index"), w)
    | Some old =>
        (Normal old,
         {| port := port w;
            signal := <[index := wrap_int32 (old + value)]> (signal w);
            waiters := waiters w;
            log := log w ++ [EvAtomicsAdd index value] |})
    end.

(** [Atomics.notify(signal, index)] with the default count: every agent
    sleeping on the cell is woken; returns how many were. *)
Definition notify (index : nat) : Async nat :=
  fun w =>
    match signal w !! index with
    | None => (Throw (RangeError "Invalid atomic access index"), w)
    | Some _ =>
        (Normal (length (filter (fun i => i = index) (waiters w))),
         {| port := port w; signal := signal w;
            waiters := filter (fun i => i <> index) (waiters w);
            log := log w ++ [EvAtomicsNotify index] |})
    end.
End Atomics.

(** Modelled from the spec: the main thread's side of the rendezvous is not
    part of the sources at hand. It blocks on cell 0 of the signal while the
    cell holds 0 and nobody has woken it: [Atomics.wait(signal, 0, 0)]. *)
Definition main_thread_blocked (w : World) : bool :=
  bool_decide (signal w !! 0%nat = Some 0) && bool_decide (0%nat ∈ waiters w).

(** ** The worker *)

Section Worker.

Variable env : Collaborators.

Definition renderCss (filePath basePath : string)
    (styleIncludePaths : option (list string)) : Async string :=
  let ext := path.extname filePath in
  content ← call (EvReadFile filePath "utf8") (readFile env filePath "utf8");
  if String.eqb ext ".sass" || String.eqb ext ".scss" then
    '(module, sassCompiler) ←
      try_catch
        (c ← call (EvRequire "node-sass") (node_sass env);
         mret ("node-sass", c))
        (c ← call (EvImport "sass") (sass env);
         mret ("sass", c));
    importer ← call (EvImport "node-sass-tilde-importer")
                    (node_sass_tilde_importer env);
    let o := {| Sass.file := filePath;
                Sass.data := content;
                Sass.indentedSyntax := String.eqb ".sass" ext;
                Sass.importer := importer;
                Sass.includePaths := styleIncludePaths |} in
    r ← call (EvSassRenderSync module o) (Sass.renderSync sassCompiler o);
    mret (Sass.css r)
  else if String.eqb ext ".less" then
    less_ ← call (EvImport "less") (less env);
    let o := {| Less.filename := filePath;
                Less.javascriptEnabled := true;
                Less.paths := styleIncludePaths |} in
    out ← call (EvLessRender content o) (Less.render less_ content o);
    mret (Less.css out)
  else if String.eqb ext ".styl" || String.eqb ext ".stylus" then
    stylus_ ← call (EvImport "stylus") (stylus env);
    let r0 := Stylus.create content in
    (* [...styleIncludePaths] of undefined is a TypeError *)
    paths ← match styleIncludePaths with
            | Some l => mret ([basePath; "."] ++ l ++ ["node_modules"])%list
            | None => mthrow (TypeError "styleIncludePaths is not iterable")
            end;
    let r1 := Stylus.set "paths" (Stylus.VList paths) r0 in
    let r2 := Stylus.set "filename" (Stylus.VStr filePath) r1 in
    let r3 := Stylus.set "resolve url" (Stylus.VBool true) r2 in
    let r4 := Stylus.define "url" (Stylus.resolver None) r3 in
    call (EvStylusRender r4) (Stylus.render stylus_ r4)
  else
    (* '.css' and default *)
    mret content.

Definition optimizeCss (filePath css : string) (browsers : list string)
    (cssUrl : option CssUrl) : Postcss.LazyResult :=
  let postCssPlugins : list Postcss.Plugin := [] in
  let postCssPlugins :=
    if negb (bool_decide (cssUrl = Some none)) then
      (postCssPlugins ++ [Postcss.postcssUrl {| Postcss.url := cssUrl |}])%list
    else postCssPlugins in
  let postCssPlugins :=
    (postCssPlugins ++
      [ Postcss.postcssPresetEnv
          {| Postcss.browsers := browsers;
             Postcss.autoprefixer := true;
             Postcss.stage := 3 |};
        Postcss.cssnano
          {| Postcss.preset :=
               ("default", [("svgo", false); ("calc", false)]) |} ])%list in
  {| Postcss.plugins := postCssPlugins;
     Postcss.input := css;
     Postcss.opts :=
       {| Postcss.from := filePath;
          Postcss.to :=
            JsString.replace filePath (path.extname filePath) ".css" |} |}.

(** [await] of a lazy result: the pipeline runs now. *)
Definition await_lazy (l : Postcss.LazyResult) : Async Postcss.Result :=
  call (EvPostcssProcess l) (postcss_run env l).

Definition processCss (o : WorkerOptions) : Async WorkerResult :=
  renderedCss ← renderCss (filePath o) (basePath o) (styleIncludePaths o);
  result ← await_lazy
    (optimizeCss (filePath o) renderedCss (browserslistData o) (cssUrl o));
  mret {| css := Postcss.css result;
          warnings := map Postcss.toString (Postcss.warnings result) |}.

(** The handler registered with [parentPort.on("message", ...)], run on
    one job message; the port and the signal it names are those of the
    world. *)
Definition on_message (workerOptions : WorkerOptions) : Async unit :=
  result ← processCss workerOptions;
  MessagePort_.postMessage result;;
  MessagePort_.close;;
  Atomics.add 0 1;;
  Atomics.notify 0;;
  mret tt.

End Worker.

(** ** Reading the log *)

(** [then]-style mapping over a completion. *)
Definition Completion_map {A B} (f : A -> B) (c : Completion A) : Completion B :=
  match c with
  | Normal a => Normal (f a)
  | Throw e => Throw e
  end.

Definition is_post (e : Event) : bool :=
  match e with EvPostMessage _ => true | _ => false end.
Definition is_close (e : Event) : bool :=
  match e with EvPortClose => true | _ => false end.
Definition is_add (e : Event) : bool :=
  match e with EvAtomicsAdd _ _ => true | _ => false end.
Definition is_notify (e : Event) : bool :=
  match e with EvAtomicsNotify _ => true | _ => false end.

(** The events of the reply protocol, as opposed to calls to the
    collaborators. *)
Definition is_protocol (e : Event) : bool :=
  is_post e || is_close e || is_add e || is_notify e.

Fixpoint occurrences (p : Event -> bool) (t : list Event) : nat :=
  match t with
  | [] => O
  | e :: t' => ((if p e then 1 else 0) + occurrences p t')%nat
  end.

(** [preceded seen p q t]: every [q] event of [t] comes after some [p]
    event of [t] ([seen] tells whether a [p] event came before [t]). *)
Fixpoint preceded (seen : bool) (p q : Event -> bool) (t : list Event) : bool :=
  match t with
  | [] => true
  | e :: t' => (if q e then seen else true) && preceded (seen || p e) p q t'
  end.

Definition only_after (p q : Event -> bool) (t : list Event) : bool :=
  preceded false p q t.

(** An action that talks to collaborators only: it leaves the port, the
    signal and the sleepers alone and logs no protocol event. *)
Definition quiet {A} (m : Async A) : Prop :=
  forall w, exists evs,
    snd (m w) = logged w evs /\ occurrences is_protocol evs = 0%nat.

(** ** A concrete worker for the scenarios *)

Module Scenario.

Definition files : list (string * string) :=
  [ ("/project/src/app.css", "a{color:red}");
    ("/project/src/theme.scss", "@import 'nope';");
    ("/project/src/vars.scss", "$c: red; a{color:$c}");
    ("/project/src/main.styl", "h1{margin:0}");
    ("/project/src/notes.txt", "plain text") ].

Fixpoint lookup_file (fs : list (string * string)) (p : string) : option string :=
  match fs with
  | [] => None
  | (q, c) :: fs' => if String.eqb q p then Some c else lookup_file fs' p
  end.

(** A Sass compiler that cannot resolve any import and otherwise echoes
    its input. *)
Definition a_sass : Sass.Compiler :=
  {| Sass.renderSync o :=
       match JsString.indexOf (Sass.data o) "@import" with
       | Some _ => Throw (Error "Can't find stylesheet to import.")
       | None => Normal {| Sass.css := Sass.data o |}
       end |}.

Definition tilde : Sass.Importer :=
  fun url _ => if String.prefix "~" url then Some url else None.

Definition a_stylus : Stylus.Engine :=
  {| Stylus.render r := Normal (Stylus.str r) |}.

Definition a_less : Less.Engine :=
  {| Less.render input _ := Normal {| Less.css := input |} |}.

(** A machine where only [sass] is installed. *)
Definition env : Collaborators :=
  {| readFile p _ :=
       match lookup_file files p with
       | Some c => Normal c
       | None => Throw (Error "ENOENT: no such file or directory")
       end;
     node_sass := Throw (Error "Cannot find module 'node-sass'");
     sass := Normal a_sass;
     node_sass_tilde_importer := Normal tilde;
     less := Normal a_less;
     stylus := Normal a_stylus;
     postcss_run l :=
       Normal {| Postcss.css := Postcss.input l; Postcss.warnings := [] |} |}.

(** The same machine with [node-sass] installed as well. *)
Definition env_node_sass : Collaborators :=
  {| readFile := readFile env;
     node_sass := Normal a_sass;
     sass := sass env;
     node_sass_tilde_importer := node_sass_tilde_importer env;
     less := less env;
     stylus := stylus env;
     postcss_run := postcss_run env |}.

(** The world when a job message arrives: a fresh open port, the signal
    cell at 0 and the main thread asleep on it. *)
Definition w0 : World :=
  {| port := {| queue := []; closed := false |};
     signal := [0];
     waiters := [0%nat];
     log := [] |}.

Definition job (file : string) : WorkerOptions :=
  {| filePath := file;
     basePath := "/project";
     browserslistData := ["defaults"];
     cssUrl := Some inline;
     styleIncludePaths := Some ["/project/styles"] |}.

End Scenario.

(** ** More of the log, and more machines *)

Definition is_pipeline (e : Event) : bool :=
  match e with EvPostcssProcess _ => true | _ => false end.

(** A call that hands stylesheet text to a preprocessor engine. *)
Definition is_engine (e : Event) : bool :=
  match e with
  | EvSassRenderSync _ _ | EvLessRender _ _ | EvStylusRender _ => true
  | _ => false
  end.

Definition is_read (e : Event) : bool :=
  match e with EvReadFile _ _ => true | _ => false end.

Definition is_module_load (e : Event) : bool :=
  match e with EvRequire _ | EvImport _ => true | _ => false end.

(** An action that logs no event of the kind [p] and leaves the port, the
    signal and the sleepers alone. *)
Definition never (p : Event -> bool) {A} (m : Async A) : Prop :=
  forall w, exists evs,
    snd (m w) = logged w evs /\ occurrences p evs = 0%nat.

Module Fixture.

Definition files : list (string * string) :=
  (Scenario.files ++
   [ ("/project/src/grid.less", "@w: 10px; .g{width:@w}");
     ("/project/src/old.sass", "$c: red");
     ("/project/README", "no extension") ])%list.

Definition read (p encoding : string) : Completion string :=
  match Scenario.lookup_file files p with
  | Some c => Normal c
  | None => Throw (Error "ENOENT: no such file or directory")
  end.

Definition missing {A} (module : string) : Completion A :=
  Throw (Error ("Cannot find module '" ++ module ++ "'")).

(** A pipeline that reports two warnings. *)
Definition warning_pipeline (l : Postcss.LazyResult) : Completion Postcss.Result :=
  Normal {| Postcss.css := Postcss.input l;
            Postcss.warnings :=
              [ {| Postcss.toString := "postcss-url: missing asset" |};
                {| Postcss.toString := "cssnano: dropped rule" |} ] |}.

(** A pipeline that fails on every input. *)
Definition failing_pipeline (l : Postcss.LazyResult) : Completion Postcss.Result :=
  Throw (Error "CssSyntaxError: Unknown word").

(** Every engine installed. *)
Definition full : Collaborators :=
  {| readFile := read;
     node_sass := Normal Scenario.a_sass;
     sass := Normal Scenario.a_sass;
     node_sass_tilde_importer := Normal Scenario.tilde;
     less := Normal Scenario.a_less;
     stylus := Normal Scenario.a_stylus;
     postcss_run := warning_pipeline |}.

(** No preprocessor installed at all. *)
Definition bare : Collaborators :=
  {| readFile := read;
     node_sass := missing "node-sass";
     sass := missing "sass";
     node_sass_tilde_importer := missing "node-sass-tilde-importer";
     less := missing "less";
     stylus := missing "stylus";
     postcss_run := warning_pipeline |}.

(** [sass] installed without the tilde importer. *)
Definition no_importer : Collaborators :=
  {| readFile := read;
     node_sass := missing "node-sass";
     sass := Normal Scenario.a_sass;
     node_sass_tilde_importer := missing "node-sass-tilde-importer";
     less := Normal Scenario.a_less;
     stylus := Normal Scenario.a_stylus;
     postcss_run := warning_pipeline |}.

(** Every engine installed, and a pipeline that fails. *)
Definition broken_pipeline : Collaborators :=
  {| readFile := read;
     node_sass := Normal Scenario.a_sass;
     sass := Normal Scenario.a_sass;
     node_sass_tilde_importer := Normal Scenario.tilde;
     less := Normal Scenario.a_less;
     stylus := Normal Scenario.a_stylus;
     postcss_run := failing_pipeline |}.


(** A world whose signal buffer has no cell at all. *)
Definition w_no_cell : World :=
  {| port := {| queue := []; closed := false |};
     signal := [];
     waiters := [];
     log := [] |}.

(** A world with a wider buffer and sleepers on two cells. *)
Definition w_wide : World :=
  {| port := {| queue := []; closed := false |};
     signal := [0; 7; 9];
     waiters := [0%nat; 2%nat];
     log := [] |}.

End Fixture.

(** * Properties *)

#[local] Arguments String.eqb : simpl never.
#[local] Arguments path.extname : simpl never.
#[local] Arguments JsString.replace : simpl never.

(** ** The platform functions on known inputs *)

(** The examples of Node's documentation of [path.extname], and a few
    paths with directories and trailing separators. *)
Example extname_documented :
  path.extname "index.html" = ".html" /\
  path.extname "index.coffee.md" = ".md" /\
  path.extname "index." = "." /\
  path.extname "index" = "" /\
  path.extname ".index" = "" /\
  path.extname ".index.md" = ".md".
Proof. repeat apply conj; reflexivity. Qed.

Example extname_paths :
  path.extname "/project/src/theme.scss" = ".scss" /\
  path.extname "/project/v1.2/README" = "" /\
  path.extname "/project/src/theme.SCSS" = ".SCSS" /\
  path.extname "/project/src/.." = "" /\
  path.extname "/project/theme.sass/" = ".sass".
Proof. repeat apply conj; reflexivity. Qed.

Example replace_first_only :
  JsString.replace "a.b.a.b" ".b" "!" = "a!.a.b" /\
  JsString.replace "abc" "x" "!" = "abc" /\
  JsString.replace "abc" "" "!" = "!abc".
Proof. repeat apply conj; reflexivity. Qed.

Example wrap_int32_edges :
  wrap_int32 (0 + 1) = 1 /\
  wrap_int32 (2147483647 + 1) = -2147483648 /\
  wrap_int32 (-1 + 1) = 0.
Proof. repeat apply conj; reflexivity. Qed.

Lemma substring_none n s : String.substring n 0 s = "".
Proof.
  revert n. induction s as [|c s IH]; intros [|n]; cbn; try reflexivity.
  apply IH.
Qed.

Lemma substring_prefix s t :
  String.substring 0 (String.length s) (s ++ t) = s.
Proof.
  induction s as [|c s IH]; simpl; [by destruct t | by f_equal].
Qed.

Lemma append_empty_r s : s ++ "" = s.
Proof.
  induction s as [|c s IH]; [done|].
  change (String c (s ++ "") = String c s). by rewrite IH.
Qed.

Lemma length_append s t :
  String.length (s ++ t) = (String.length s + String.length t)%nat.
Proof.
  induction s as [|c s IH]; [done|].
  change (S (String.length (s ++ t)) = S (String.length s + String.length t)).
  by rewrite IH.
Qed.

(** When the first occurrence of [ext] in [stem ++ ext] is the final one,
    [replace] swaps the ending. *)
Lemma replace_suffix stem ext by_ :
  JsString.indexOf (stem ++ ext) ext = Some (String.length stem) ->
  JsString.replace (stem ++ ext) ext by_ = stem ++ by_.
Proof.
  intros H. unfold JsString.replace, JsString.slice. rewrite H.
  rewrite Nat.sub_0_r, substring_prefix.
  rewrite length_append, Nat.sub_diag.
  by rewrite substring_none, append_empty_r.
Qed.

(** ** Running the monad *)

Lemma logged_nil w : logged w [] = w.
Proof. destruct w; unfold logged; cbn. by rewrite app_nil_r. Qed.

Lemma logged_logged w evs evs' :
  logged (logged w evs) evs' = logged w (evs ++ evs').
Proof. unfold logged; cbn. by rewrite app_assoc. Qed.

Lemma run_ret {A} (a : A) w : (mret a : Async A) w = (Normal a, w).
Proof. reflexivity. Qed.

Lemma run_bind_normal {A B} (m : Async A) (f : A -> Async B) w a w' :
  m w = (Normal a, w') -> (m ≫= f) w = f a w'.
Proof. intros H. unfold mbind, Async_bind. by rewrite H. Qed.

Lemma run_bind_throw {A B} (m : Async A) (f : A -> Async B) w e w' :
  m w = (Throw e, w') -> (m ≫= f) w = (Throw e, w').
Proof. intros H. unfold mbind, Async_bind. by rewrite H. Qed.

Lemma run_call {A} ev (c : Completion A) w :
  call ev c w = (c, logged w [ev]).
Proof. reflexivity. Qed.

(** Unfold the monad and compute as far as the collaborators allow. *)
Ltac run_async :=
  unfold try_catch, mbind, Async_bind, call, mret, Async_ret,
    mthrow, Async_throw, logged;
  cbn.

(** Close a goal between two worlds that differ in how the log is
    bracketed. *)
Ltac same_world :=
  unfold logged; cbn; rewrite <- ?app_assoc; reflexivity.

(** ** The dialect renderer *)

Section Renderer.

Variable env : Collaborators.

Lemma renderCss_read_rejected filePath basePath incl w e :
  readFile env filePath "utf8" = Throw e ->
  renderCss env filePath basePath incl w =
    (Throw e, logged w [EvReadFile filePath "utf8"]).
Proof.
  intros Hread. unfold renderCss.
  apply run_bind_throw. by rewrite run_call, Hread.
Qed.

Lemma renderCss_passthrough filePath basePath incl w content :
  readFile env filePath "utf8" = Normal content ->
  ~ In (path.extname filePath) [".sass"; ".scss"; ".less"; ".styl"; ".stylus"] ->
  renderCss env filePath basePath incl w =
    (Normal content, logged w [EvReadFile filePath "utf8"]).
Proof.
  intros Hread Hext. unfold renderCss.
  erewrite run_bind_normal; [|by rewrite run_call, Hread].
  repeat match goal with
  | |- context [String.eqb ?a ?b] =>
      destruct (String.eqb_spec a b) as [Heq|_];
      [exfalso; apply Hext; rewrite Heq; cbn; tauto|]
  end.
  reflexivity.
Qed.

Lemma sass_branch ext :
  ext = ".sass" \/ ext = ".scss" ->
  String.eqb ext ".sass" || String.eqb ext ".scss" = true.
Proof. intros [-> | ->]; reflexivity. Qed.

Lemma stylus_branch ext :
  ext = ".styl" \/ ext = ".stylus" ->
  String.eqb ext ".sass" || String.eqb ext ".scss" = false /\
  String.eqb ext ".less" = false /\
  String.eqb ext ".styl" || String.eqb ext ".stylus" = true.
Proof. intros [-> | ->]; repeat split; reflexivity. Qed.

(** The options [renderSync] is called with. *)
Lemma renderCss_sass_node_sass filePath basePath incl w content c imp :
  path.extname filePath = ".sass" \/ path.extname filePath = ".scss" ->
  readFile env filePath "utf8" = Normal content ->
  node_sass env = Normal c ->
  node_sass_tilde_importer env = Normal imp ->
  let o := {| Sass.file := filePath; Sass.data := content;
              Sass.indentedSyntax := String.eqb ".sass" (path.extname filePath);
              Sass.importer := imp; Sass.includePaths := incl |} in
  renderCss env filePath basePath incl w =
    (Completion_map Sass.css (Sass.renderSync c o),
     logged w [EvReadFile filePath "utf8"; EvRequire "node-sass";
               EvImport "node-sass-tilde-importer";
               EvSassRenderSync "node-sass" o]).
Proof.
  intros Hext Hread Hnode Himp o. unfold renderCss.
  erewrite run_bind_normal; [|by rewrite run_call, Hread].
  rewrite (sass_branch _ Hext).
  run_async. rewrite Hnode, Himp. cbn.
  fold o. destruct (Sass.renderSync c o); same_world.
Qed.

Lemma renderCss_sass_fallback filePath basePath incl w content e c imp :
  path.extname filePath = ".sass" \/ path.extname filePath = ".scss" ->
  readFile env filePath "utf8" = Normal content ->
  node_sass env = Throw e ->
  sass env = Normal c ->
  node_sass_tilde_importer env = Normal imp ->
  let o := {| Sass.file := filePath; Sass.data := content;
              Sass.indentedSyntax := String.eqb ".sass" (path.extname filePath);
              Sass.importer := imp; Sass.includePaths := incl |} in
  renderCss env filePath basePath incl w =
    (Completion_map Sass.css (Sass.renderSync c o),
     logged w [EvReadFile filePath "utf8"; EvRequire "node-sass";
               EvImport "sass"; EvImport "node-sass-tilde-importer";
               EvSassRenderSync "sass" o]).
Proof.
  intros Hext Hread Hnode Hsass Himp o. unfold renderCss.
  erewrite run_bind_normal; [|by rewrite run_call, Hread].
  rewrite (sass_branch _ Hext).
  run_async. rewrite Hnode. cbn. rewrite Hsass, Himp. cbn.
  fold o. destruct (Sass.renderSync c o); same_world.
Qed.

Lemma renderCss_stylus_run filePath basePath incl w content engine :
  path.extname filePath = ".styl" \/ path.extname filePath = ".stylus" ->
  readFile env filePath "utf8" = Normal content ->
  stylus env = Normal engine ->
  let r :=
    Stylus.define "url" (Stylus.resolver None)
      (Stylus.set "resolve url" (Stylus.VBool true)
         (Stylus.set "filename" (Stylus.VStr filePath)
            (Stylus.set "paths"
               (Stylus.VList ([basePath; "."] ++ incl ++ ["node_modules"])%list)
               (Stylus.create content)))) in
  renderCss env filePath basePath (Some incl) w =
    (Stylus.render engine r,
     logged w [EvReadFile filePath "utf8"; EvImport "stylus";
               EvStylusRender r]).
Proof.
  intros Hext Hread Hstylus r. unfold renderCss.
  erewrite run_bind_normal; [|by rewrite run_call, Hread].
  destruct (stylus_branch _ Hext) as (-> & -> & ->).
  run_async. rewrite Hstylus. cbn.
  subst r. same_world.
Qed.

End Renderer.

(** ** Rendering and optimizing never touch the reply protocol *)

Lemma occurrences_app p t1 t2 :
  occurrences p (t1 ++ t2) = (occurrences p t1 + occurrences p t2)%nat.
Proof. induction t1 as [|e t1 IH]; cbn; [done | rewrite IH; lia]. Qed.

Lemma quiet_ret {A} (a : A) : quiet (mret a).
Proof. intros w. exists []. by rewrite run_ret, logged_nil. Qed.

Lemma quiet_throw {A} (e : JsError) : quiet (mthrow e : Async A).
Proof. intros w. exists []. cbn. by rewrite logged_nil. Qed.

Lemma quiet_call {A} ev (c : Completion A) :
  is_protocol ev = false -> quiet (call ev c).
Proof. intros H w. exists [ev]. rewrite run_call. cbn. by rewrite H. Qed.

Lemma quiet_bind {A B} (m : Async A) (f : A -> Async B) :
  quiet m -> (forall a, quiet (f a)) -> quiet (m ≫= f).
Proof.
  intros Hm Hf w. destruct (Hm w) as (evs & Hw & Hevs).
  unfold mbind, Async_bind. destruct (m w) as [[a|e] w1]; cbn in Hw; subst w1.
  - destruct (Hf a (logged w evs)) as (evs' & Hw' & Hevs').
    exists (evs ++ evs')%list. rewrite Hw', logged_logged, occurrences_app. split; [done | lia].
  - by exists evs.
Qed.

Lemma quiet_try_catch {A} (m h : Async A) :
  quiet m -> quiet h -> quiet (try_catch m h).
Proof.
  intros Hm Hh w. destruct (Hm w) as (evs & Hw & Hevs).
  unfold try_catch. destruct (m w) as [[a|e] w1]; cbn in Hw; subst w1.
  - by exists evs.
  - destruct (Hh (logged w evs)) as (evs' & Hw' & Hevs').
    exists (evs ++ evs')%list. rewrite Hw', logged_logged, occurrences_app. split; [done | lia].
Qed.

Create HintDb quiet.
#[local] Hint Resolve quiet_ret quiet_throw quiet_bind quiet_try_catch : quiet.
#[local] Hint Extern 1 (quiet (call _ _)) => apply quiet_call; reflexivity : quiet.
#[local] Hint Extern 2 (quiet (if ?b then _ else _)) => destruct b : quiet.
#[local] Hint Extern 2 (quiet (match ?x with _ => _ end)) => destruct x : quiet.
#[local] Hint Extern 3 (forall _, quiet _) => intro : quiet.

Lemma renderCss_quiet env filePath basePath incl :
  quiet (renderCss env filePath basePath incl).
Proof. unfold renderCss. auto 20 with quiet. Qed.

Lemma processCss_quiet env o : quiet (processCss env o).
Proof.
  unfold processCss, await_lazy.
  apply quiet_bind; [apply renderCss_quiet | auto 10 with quiet].
Qed.

(** ** The message handler, step by step *)

Lemma on_message_rejected env o w e w1 :
  processCss env o w = (Throw e, w1) ->
  on_message env o w = (Throw e, w1).
Proof. intros H. unfold on_message. by apply run_bind_throw. Qed.

Lemma on_message_fulfilled env o w r w1 v :
  processCss env o w = (Normal r, w1) ->
  signal w1 !! 0%nat = Some v ->
  on_message env o w =
    (Normal tt,
     {| port := {| queue := if closed (port w1) then queue (port w1)
                            else queue (port w1) ++ [r];
                   closed := true |};
        signal := <[0%nat := wrap_int32 (v + 1)]> (signal w1);
        waiters := filter (fun i => i <> 0%nat) (waiters w1);
        log := log w1 ++ [EvPostMessage r; EvPortClose;
                          EvAtomicsAdd 0 1; EvAtomicsNotify 0] |}).
Proof.
  intros H Hv. unfold on_message. erewrite run_bind_normal; [|exact H].
  unfold mbind, Async_bind, MessagePort_.postMessage, MessagePort_.close,
    Atomics.add, Atomics.notify. cbn.
  rewrite Hv. cbn.
  assert (is_Some (<[0%nat:=wrap_int32 (v + 1)]> (signal w1) !! 0%nat)) as [v' ->].
  { apply lookup_lt_is_Some. rewrite length_insert.
    by apply lookup_lt_is_Some. }
  rewrite run_ret. f_equal. f_equal.
  - by destruct (closed (port w1)).
  - by rewrite <- !app_assoc.
Qed.

(** A job that fails in rendering or optimizing leaves the port, the
    signal and the sleepers exactly as it found them. *)
Lemma on_message_rejected_frame env o w e w1 :
  processCss env o w = (Throw e, w1) ->
  exists evs,
    on_message env o w = (Throw e, logged w evs) /\
    occurrences is_protocol evs = 0%nat /\
    main_thread_blocked (logged w evs) = main_thread_blocked w.
Proof.
  intros H. destruct (processCss_quiet env o w) as (evs & Hw & Hevs).
  rewrite H in Hw; cbn in Hw; subst w1.
  exists evs. by rewrite (on_message_rejected _ _ _ _ _ H).
Qed.

(** A job that succeeds leaves nobody asleep on cell 0. *)
Lemma on_message_fulfilled_wakes env o w r w1 v w2 :
  processCss env o w = (Normal r, w1) ->
  signal w1 !! 0%nat = Some v ->
  on_message env o w = (Normal tt, w2) ->
  main_thread_blocked w2 = false.
Proof.
  intros H Hv Hrun.
  rewrite (on_message_fulfilled _ _ _ _ _ _ H Hv) in Hrun.
  injection Hrun as <-. unfold main_thread_blocked. cbn.
  apply andb_false_intro2, bool_decide_eq_false_2.
  rewrite list_elem_of_filter. tauto.
Qed.

(** ** The reply protocol *)

(** C1 (the handler on a job whose file cannot be read): the job message
    names a file that does not exist, [readFile] rejects, and the handler
    stops at its first [await]: nothing is posted on the reply port, the
    completion counter is not incremented (zero additions, the cell still
    holds 0) and no wake notification is issued, where one increment and one
    notification per job were called for. *)
Theorem on_message_unreadable_file_never_signals :
  let run := on_message Scenario.env (Scenario.job "/project/src/missing.css")
               Scenario.w0 in
  fst run = Throw (Error "ENOENT: no such file or directory") /\
  occurrences is_post (log (snd run)) = 0%nat /\
  occurrences is_add (log (snd run)) = 0%nat /\
  occurrences is_notify (log (snd run)) = 0%nat /\
  signal (snd run) = [0].
Proof. cbv zeta. repeat apply conj; reflexivity. Qed.

(** C2 (the handler on a job whose rendering fails): a [.scss] file imports
    a partial that does not exist and the Sass compiler throws. The handler
    rejects with that error; no message reaches the port, the completion cell
    is never signalled and the main thread, asleep on the cell, stays blocked,
    whereas a job that succeeds on the same worker wakes it. *)
Theorem on_message_render_error_keeps_main_thread_blocked :
  let failed := on_message Scenario.env (Scenario.job "/project/src/theme.scss")
                  Scenario.w0 in
  let succeeded := on_message Scenario.env (Scenario.job "/project/src/app.css")
                     Scenario.w0 in
  fst failed = Throw (Error "Can't find stylesheet to import.") /\
  queue (port (snd failed)) = [] /\
  occurrences is_add (log (snd failed)) = 0%nat /\
  occurrences is_notify (log (snd failed)) = 0%nat /\
  main_thread_blocked (snd failed) = true /\
  main_thread_blocked (snd succeeded) = false.
Proof. cbv zeta. repeat apply conj; reflexivity. Qed.

(** C3 (the claim as it was stated fails): on a job that succeeds, the
    reply port is closed BEFORE the completion signal is mutated: in the log
    of the run the close is not preceded by any addition, and the addition
    comes after the close. *)
Lemma close_precedes_signal :
  let run := on_message Scenario.env (Scenario.job "/project/src/app.css")
               Scenario.w0 in
  fst run = Normal tt /\
  only_after is_add is_close (log (snd run)) = false /\
  only_after is_close is_add (log (snd run)) = true.
Proof. cbv zeta. repeat apply conj; reflexivity. Qed.

(** C3 (as amended): for every job whose rendering and optimizing succeed,
    handed a signal buffer that has a cell 0, the handler's steps come in the
    order post, close, add, notify: after the calls to the collaborators the
    log ends with the result posted, then the port closed, then one atomic
    addition of 1 to cell 0, then one notification; the port ends closed and
    the cell holds the old value plus one (wrapped to 32 bits). *)
Theorem on_message_post_close_signal env o w r w1 v :
  processCss env o w = (Normal r, w1) ->
  signal w !! 0%nat = Some v ->
  exists evs w2,
    on_message env o w = (Normal tt, w2) /\
    occurrences is_protocol evs = 0%nat /\
    log w2 = (log w ++ evs ++ [EvPostMessage r; EvPortClose;
                               EvAtomicsAdd 0 1; EvAtomicsNotify 0])%list /\
    closed (port w2) = true /\
    signal w2 = <[0%nat := wrap_int32 (v + 1)]> (signal w).
Proof.
  intros H Hv. destruct (processCss_quiet env o w) as (evs & Hw & Hevs).
  rewrite H in Hw; cbn in Hw; subst w1.
  exists evs. eexists. split; [by apply (on_message_fulfilled _ _ _ _ _ v H)|].
  cbn. rewrite <- app_assoc. done.
Qed.

(** The order of the steps on the job for [app.css], which succeeds. *)
Lemma on_message_post_close_signal_witness :
  let o := Scenario.job "/project/src/app.css" in
  let r := {| css := "a{color:red}"; warnings := [] |} in
  let w1 := snd (processCss Scenario.env o Scenario.w0) in
  processCss Scenario.env o Scenario.w0 = (Normal r, w1) /\
  signal Scenario.w0 !! 0%nat = Some 0 /\
  exists evs w2,
    on_message Scenario.env o Scenario.w0 = (Normal tt, w2) /\
    occurrences is_protocol evs = 0%nat /\
    log w2 = (log Scenario.w0 ++ evs ++ [EvPostMessage r; EvPortClose;
                               EvAtomicsAdd 0 1; EvAtomicsNotify 0])%list /\
    closed (port w2) = true /\
    signal w2 = <[0%nat := wrap_int32 (0 + 1)]> (signal Scenario.w0).
Proof.
  split; [reflexivity|]. split; [reflexivity|].
  apply (on_message_post_close_signal Scenario.env
           (Scenario.job "/project/src/app.css") Scenario.w0
           {| css := "a{color:red}"; warnings := [] |}
           (snd (processCss Scenario.env (Scenario.job "/project/src/app.css")
                   Scenario.w0)) 0);
    reflexivity.
Defined.

(** ** The optimization pipeline *)

(** Where the extension's text occurs nowhere before the extension itself,
    the "to" path is the path with its extension swapped for [.css]. *)
Lemma optimizeCss_to_swaps_extension stem ext css browsers cssUrl :
  path.extname (stem ++ ext) = ext ->
  JsString.indexOf (stem ++ ext) ext = Some (String.length stem) ->
  Postcss.to (Postcss.opts (optimizeCss (stem ++ ext) css browsers cssUrl)) =
    stem ++ ".css".
Proof.
  intros Hext Hfirst. unfold optimizeCss. cbn [Postcss.to Postcss.opts].
  rewrite Hext. by apply replace_suffix.
Qed.

Example optimizeCss_to_theme :
  Postcss.to (Postcss.opts
    (optimizeCss "/project/src/theme.scss" "a{}" ["defaults"] None)) =
  "/project/src/theme.css".
Proof.
  apply (optimizeCss_to_swaps_extension "/project/src/theme" ".scss");
    reflexivity.
Qed.

(** C4: whatever the file, the css, the browser list and the url mode, the
    plugin chain is, in this order: the URL-rewrite plugin, present if and
    only if the url mode is not [none]; the preset plugin, with autoprefixer
    on and stage 3; cssnano with the default preset and the two overrides
    svgo and calc switched off. *)
Theorem optimizeCss_plugin_chain filePath css browsers cssUrl :
  let chain := Postcss.plugins (optimizeCss filePath css browsers cssUrl) in
  chain =
    ((if bool_decide (cssUrl = Some none) then []
      else [Postcss.postcssUrl {| Postcss.url := cssUrl |}]) ++
     [ Postcss.postcssPresetEnv
         {| Postcss.browsers := browsers;
            Postcss.autoprefixer := true;
            Postcss.stage := 3 |};
       Postcss.cssnano
         {| Postcss.preset :=
              ("default", [("svgo", false); ("calc", false)]) |} ])%list /\
  ((exists o, Postcss.postcssUrl o ∈ chain) <-> cssUrl <> Some none).
Proof.
  cbv zeta. unfold optimizeCss. cbn.
  case_bool_decide as Hurl; cbn; (split; [reflexivity|]).
  - split; [|done]. intros [o Ho].
    rewrite !elem_of_cons, elem_of_nil in Ho.
    destruct Ho as [Ho | [Ho | []]]; discriminate Ho.
  - split; [done|]. intros _. eexists. apply list_elem_of_here.
Qed.

(** C8 (the virtual "to" path when the extension's text occurs earlier in
    the path): the file [/work/ui.less/src/button.less] has the extension
    [.less] and is [/work/ui.less/src/button] followed by it, yet the "to"
    path handed to the pipeline is [/work/ui.css/src/button.less], not
    [/work/ui.less/src/button.css]: the first occurrence of the extension's
    text is replaced, not the extension. The "from" path is the original
    path. *)
Theorem optimizeCss_to_replaces_first_occurrence :
  let p := "/work/ui.less/src/button.less" in
  let o := Postcss.opts (optimizeCss p "a{}" ["defaults"] (Some inline)) in
  path.extname p = ".less" /\
  p = "/work/ui.less/src/button" ++ ".less" /\
  Postcss.from o = p /\
  Postcss.to o = "/work/ui.css/src/button.less" /\
  Postcss.to o <> "/work/ui.less/src/button" ++ ".css".
Proof.
  cbv zeta. repeat apply conj; [reflexivity .. |].
  vm_compute. discriminate.
Qed.

(** C9: when [cssUrl] is undefined the chain still starts with the
    URL-rewrite plugin, configured with an undefined url mode; and for every
    value of [cssUrl], a chain without the URL-rewrite plugin means that
    [cssUrl] is exactly [none]. *)
Theorem optimizeCss_undefined_cssUrl filePath css browsers :
  head (Postcss.plugins (optimizeCss filePath css browsers None)) =
    Some (Postcss.postcssUrl {| Postcss.url := None |}) /\
  forall cssUrl,
    (forall o, Postcss.postcssUrl o ∉
                 Postcss.plugins (optimizeCss filePath css browsers cssUrl)) ->
    cssUrl = Some none.
Proof.
  split; [reflexivity|]. intros cssUrl Habsent.
  destruct (decide (cssUrl = Some none)) as [|Hne]; [done|].
  exfalso. apply (Habsent {| Postcss.url := cssUrl |}).
  unfold optimizeCss. cbn. rewrite bool_decide_eq_false_2 by done.
  apply list_elem_of_here.
Qed.

(** With [cssUrl] set to [none] the URL-rewrite plugin is indeed absent. *)
Lemma optimizeCss_undefined_cssUrl_witness :
  (forall o, Postcss.postcssUrl o ∉
     Postcss.plugins (optimizeCss "/project/src/app.css" "a{}" ["defaults"]
                        (Some none))) /\
  Some none = Some none :> option CssUrl.
Proof.
  assert (forall o, Postcss.postcssUrl o ∉
     Postcss.plugins (optimizeCss "/project/src/app.css" "a{}" ["defaults"]
                        (Some none))) as Habsent.
  { intros o Ho. unfold optimizeCss in Ho.
    rewrite bool_decide_eq_true_2 in Ho by done. cbn in Ho.
    rewrite !elem_of_cons, elem_of_nil in Ho.
    destruct Ho as [Ho | [Ho | []]]; discriminate Ho. }
  split; [exact Habsent|].
  exact (proj2 (optimizeCss_undefined_cssUrl "/project/src/app.css" "a{}"
                  ["defaults"]) (Some none) Habsent).
Defined.

(** ** The dialect renderer, claim by claim *)

(** C5: for a readable file whose extension is [.sass] or [.scss], on a
    machine where the tilde importer loads, [renderCss] calls [renderSync] of
    a Sass compiler with the file, its content, [indentedSyntax] set exactly
    when the extension is [.sass], the tilde importer as [importer] and the
    job's include paths as [includePaths]. [node-sass] is required first and
    used when it loads ([sass] is then not imported); when requiring it
    throws, [sass] is imported and used. *)
Theorem renderCss_sass env filePath basePath incl w content imp :
  path.extname filePath = ".sass" \/ path.extname filePath = ".scss" ->
  readFile env filePath "utf8" = Normal content ->
  node_sass_tilde_importer env = Normal imp ->
  let o := {| Sass.file := filePath; Sass.data := content;
              Sass.indentedSyntax := String.eqb ".sass" (path.extname filePath);
              Sass.importer := imp; Sass.includePaths := incl |} in
  (Sass.indentedSyntax o = true <-> path.extname filePath = ".sass") /\
  (forall c, node_sass env = Normal c ->
     renderCss env filePath basePath incl w =
       (Completion_map Sass.css (Sass.renderSync c o),
        logged w [EvReadFile filePath "utf8"; EvRequire "node-sass";
                  EvImport "node-sass-tilde-importer";
                  EvSassRenderSync "node-sass" o])) /\
  (forall e c, node_sass env = Throw e -> sass env = Normal c ->
     renderCss env filePath basePath incl w =
       (Completion_map Sass.css (Sass.renderSync c o),
        logged w [EvReadFile filePath "utf8"; EvRequire "node-sass";
                  EvImport "sass"; EvImport "node-sass-tilde-importer";
                  EvSassRenderSync "sass" o])).
Proof.
  intros Hext Hread Himp o. split; [|split].
  - cbn. rewrite String.eqb_eq. split; intros H; symmetry; exact H.
  - intros c Hnode. by apply renderCss_sass_node_sass.
  - intros e c Hnode Hsass. by eapply renderCss_sass_fallback.
Qed.

(** [vars.scss] on a machine with [sass] only, and on one with [node-sass]. *)
Lemma renderCss_sass_witness :
  let filePath := "/project/src/vars.scss" in
  let incl := Some ["/project/styles"] in
  let o := {| Sass.file := filePath; Sass.data := "$c: red; a{color:$c}";
              Sass.indentedSyntax := false;
              Sass.importer := Scenario.tilde; Sass.includePaths := incl |} in
  (path.extname filePath = ".sass" \/ path.extname filePath = ".scss") /\
  readFile Scenario.env filePath "utf8" = Normal "$c: red; a{color:$c}" /\
  node_sass_tilde_importer Scenario.env = Normal Scenario.tilde /\
  renderCss Scenario.env filePath "/project" incl Scenario.w0 =
    (Normal "$c: red; a{color:$c}",
     logged Scenario.w0
       [EvReadFile filePath "utf8"; EvRequire "node-sass"; EvImport "sass";
        EvImport "node-sass-tilde-importer"; EvSassRenderSync "sass" o]) /\
  renderCss Scenario.env_node_sass filePath "/project" incl Scenario.w0 =
    (Normal "$c: red; a{color:$c}",
     logged Scenario.w0
       [EvReadFile filePath "utf8"; EvRequire "node-sass";
        EvImport "node-sass-tilde-importer"; EvSassRenderSync "node-sass" o]).
Proof.
  cbv zeta.
  split; [right; reflexivity|]. split; [reflexivity|]. split; [reflexivity|].
  split.
  - exact (proj2 (proj2
      (renderCss_sass Scenario.env "/project/src/vars.scss" "/project"
         (Some ["/project/styles"]) Scenario.w0 "$c: red; a{color:$c}"
         Scenario.tilde (or_intror eq_refl) eq_refl eq_refl))
      (Error "Cannot find module 'node-sass'") Scenario.a_sass eq_refl eq_refl).
  - exact (proj1 (proj2
      (renderCss_sass Scenario.env_node_sass "/project/src/vars.scss" "/project"
         (Some ["/project/styles"]) Scenario.w0 "$c: red; a{color:$c}"
         Scenario.tilde (or_intror eq_refl) eq_refl eq_refl))
      Scenario.a_sass eq_refl).
Defined.

(** C6: for a readable file whose extension is [.styl] or [.stylus], with
    the include paths [incl] and a Stylus engine that loads, [renderCss]
    renders the file's content with a renderer whose [paths] option is
    exactly [basePath], ['.'], the include paths, ['node_modules'] in that
    order, whose [resolve url] option is true and whose [url] function is
    the engine's resolver made with undefined options. *)
Theorem renderCss_stylus env filePath basePath incl w content engine :
  path.extname filePath = ".styl" \/ path.extname filePath = ".stylus" ->
  readFile env filePath "utf8" = Normal content ->
  stylus env = Normal engine ->
  exists r,
    renderCss env filePath basePath (Some incl) w =
      (Stylus.render engine r,
       logged w [EvReadFile filePath "utf8"; EvImport "stylus";
                 EvStylusRender r]) /\
    Stylus.str r = content /\
    Stylus.options r !! "paths" =
      Some (Stylus.VList ([basePath; "."] ++ incl ++ ["node_modules"])%list) /\
    Stylus.options r !! "resolve url" = Some (Stylus.VBool true) /\
    Stylus.functions r !! "url" = Some (Stylus.resolver None).
Proof.
  intros Hext Hread Hstylus. eexists. split.
  - by apply renderCss_stylus_run.
  - cbn. repeat apply conj; [reflexivity | | | ].
    + rewrite !lookup_insert_ne by discriminate. apply lookup_insert_eq.
    + apply lookup_insert_eq.
    + apply lookup_insert_eq.
Qed.

(** [main.styl] with one include path. *)
Lemma renderCss_stylus_witness :
  let filePath := "/project/src/main.styl" in
  (path.extname filePath = ".styl" \/ path.extname filePath = ".stylus") /\
  readFile Scenario.env filePath "utf8" = Normal "h1{margin:0}" /\
  stylus Scenario.env = Normal Scenario.a_stylus /\
  exists r,
    renderCss Scenario.env filePath "/project" (Some ["/project/styles"])
        Scenario.w0 =
      (Stylus.render Scenario.a_stylus r,
       logged Scenario.w0 [EvReadFile filePath "utf8"; EvImport "stylus";
                           EvStylusRender r]) /\
    Stylus.str r = "h1{margin:0}" /\
    Stylus.options r !! "paths" =
      Some (Stylus.VList ["/project"; "."; "/project/styles"; "node_modules"]) /\
    Stylus.options r !! "resolve url" = Some (Stylus.VBool true) /\
    Stylus.functions r !! "url" = Some (Stylus.resolver None).
Proof.
  cbv zeta.
  split; [left; reflexivity|]. split; [reflexivity|]. split; [reflexivity|].
  exact (renderCss_stylus Scenario.env "/project/src/main.styl" "/project"
           ["/project/styles"] Scenario.w0 _ Scenario.a_stylus
           (or_introl eq_refl) eq_refl eq_refl).
Defined.

(** C7: for a readable file whose extension is [.css], or is none of
    [.sass], [.scss], [.less], [.styl], [.stylus], [renderCss] fulfils with
    the text [readFile] returned, unchanged, and calls nothing but the
    file reader. *)
Theorem renderCss_css_passthrough env filePath basePath incl w content :
  path.extname filePath = ".css" \/
    ~ In (path.extname filePath) [".sass"; ".scss"; ".less"; ".styl"; ".stylus"] ->
  readFile env filePath "utf8" = Normal content ->
  renderCss env filePath basePath incl w =
    (Normal content, logged w [EvReadFile filePath "utf8"]).
Proof.
  intros Hext Hread. apply renderCss_passthrough; [done|].
  destruct Hext as [-> | Hext]; [|done].
  cbn. intros H. repeat destruct H as [H | H]; try discriminate H. done.
Qed.

(** [app.css] comes back as it was read. *)
Lemma renderCss_css_passthrough_witness :
  (path.extname "/project/src/app.css" = ".css" \/
     ~ In (path.extname "/project/src/app.css")
          [".sass"; ".scss"; ".less"; ".styl"; ".stylus"]) /\
  readFile Scenario.env "/project/src/app.css" "utf8" = Normal "a{color:red}" /\
  renderCss Scenario.env "/project/src/app.css" "/project" None Scenario.w0 =
    (Normal "a{color:red}",
     logged Scenario.w0 [EvReadFile "/project/src/app.css" "utf8"]).
Proof.
  split; [left; reflexivity|]. split; [reflexivity|].
  apply (renderCss_css_passthrough Scenario.env "/project/src/app.css"
           "/project" None Scenario.w0 "a{color:red}");
    [left; reflexivity | reflexivity].
Defined.

(** C10: in every run of [renderCss] the first call is the read of the
    file, made before the extension is looked at; and when the read fails,
    [renderCss] rejects with the read's error after that single call,
    whatever the extension, the passthrough branch included. *)
Theorem renderCss_reads_first env filePath basePath incl w :
  (exists evs,
     snd (renderCss env filePath basePath incl w) =
       logged w (EvReadFile filePath "utf8" :: evs)) /\
  (forall e,
     readFile env filePath "utf8" = Throw e ->
     renderCss env filePath basePath incl w =
       (Throw e, logged w [EvReadFile filePath "utf8"])).
Proof.
  split; [|intros e; apply renderCss_read_rejected].
  destruct (readFile env filePath "utf8") as [content|e] eqn:Hread.
  - unfold renderCss.
    match goal with
    | |- context [call ?ev ?c ≫= ?k] =>
        assert (quiet (k content)) as Hk by auto 20 with quiet;
        erewrite (run_bind_normal (call ev c) k); [|by rewrite run_call, Hread]
    end.
    destruct (Hk (logged w [EvReadFile filePath "utf8"])) as (evs & -> & _).
    exists evs. by rewrite logged_logged.
  - exists []. by erewrite renderCss_read_rejected.
Qed.

(** A missing file fails the passthrough branch and the Sass branch alike. *)
Lemma renderCss_reads_first_witness :
  readFile Scenario.env "/project/src/missing.css" "utf8" =
    Throw (Error "ENOENT: no such file or directory") /\
  readFile Scenario.env "/project/src/missing.scss" "utf8" =
    Throw (Error "ENOENT: no such file or directory") /\
  renderCss Scenario.env "/project/src/missing.css" "/project" None Scenario.w0 =
    (Throw (Error "ENOENT: no such file or directory"),
     logged Scenario.w0 [EvReadFile "/project/src/missing.css" "utf8"]) /\
  renderCss Scenario.env "/project/src/missing.scss" "/project" None Scenario.w0 =
    (Throw (Error "ENOENT: no such file or directory"),
     logged Scenario.w0 [EvReadFile "/project/src/missing.scss" "utf8"]).
Proof.
  split; [reflexivity|]. split; [reflexivity|]. split.
  - exact (proj2 (renderCss_reads_first Scenario.env "/project/src/missing.css"
                    "/project" None Scenario.w0) _ eq_refl).
  - exact (proj2 (renderCss_reads_first Scenario.env "/project/src/missing.scss"
                    "/project" None Scenario.w0) _ eq_refl).
Defined.

(** * Beyond the claims *)

(** ** Actions that never log a kind of event *)

Lemma never_ret p {A} (a : A) : never p (mret a).
Proof. intros w. exists []. by rewrite run_ret, logged_nil. Qed.

Lemma never_throw p {A} (e : JsError) : never p (mthrow e : Async A).
Proof. intros w. exists []. cbn. by rewrite logged_nil. Qed.

Lemma never_call p {A} ev (c : Completion A) :
  p ev = false -> never p (call ev c).
Proof. intros H w. exists [ev]. rewrite run_call. cbn. by rewrite H. Qed.

Lemma never_bind p {A B} (m : Async A) (f : A -> Async B) :
  never p m -> (forall a, never p (f a)) -> never p (m ≫= f).
Proof.
  intros Hm Hf w. destruct (Hm w) as (evs & Hw & Hevs).
  unfold mbind, Async_bind. destruct (m w) as [[a|e] w1]; cbn in Hw; subst w1.
  - destruct (Hf a (logged w evs)) as (evs' & Hw' & Hevs').
    exists (evs ++ evs')%list.
    rewrite Hw', logged_logged, occurrences_app. split; [done | lia].
  - by exists evs.
Qed.

Lemma never_try_catch p {A} (m h : Async A) :
  never p m -> never p h -> never p (try_catch m h).
Proof.
  intros Hm Hh w. destruct (Hm w) as (evs & Hw & Hevs).
  unfold try_catch. destruct (m w) as [[a|e] w1]; cbn in Hw; subst w1.
  - by exists evs.
  - destruct (Hh (logged w evs)) as (evs' & Hw' & Hevs').
    exists (evs ++ evs')%list.
    rewrite Hw', logged_logged, occurrences_app. split; [done | lia].
Qed.

Create HintDb never.
#[local] Hint Resolve never_ret never_throw never_bind never_try_catch : never.
#[local] Hint Extern 1 (never _ (call _ _)) => apply never_call; reflexivity : never.
#[local] Hint Extern 2 (never _ (if ?b then _ else _)) => destruct b : never.
#[local] Hint Extern 2 (never _ (match ?x with _ => _ end)) => destruct x : never.
#[local] Hint Extern 3 (forall _, never _ _) => intro : never.

Lemma renderCss_never_pipeline env filePath basePath incl :
  never is_pipeline (renderCss env filePath basePath incl).
Proof. unfold renderCss. auto 20 with never. Qed.

(** A log without protocol events has none of any one protocol kind. *)
Lemma occurrences_protocol_none evs :
  occurrences is_protocol evs = 0%nat ->
  occurrences is_post evs = 0%nat /\ occurrences is_close evs = 0%nat /\
  occurrences is_add evs = 0%nat /\ occurrences is_notify evs = 0%nat.
Proof.
  induction evs as [|e evs IH]; cbn; [done|].
  unfold is_protocol. destruct e; cbn; try discriminate; exact IH.
Qed.

Lemma preceded_none seen p q evs :
  occurrences q evs = 0%nat -> preceded seen p q evs = true.
Proof.
  revert seen. induction evs as [|e evs IH]; intros seen; cbn; [done|].
  destruct (q e); [discriminate|]. cbn. apply IH.
Qed.

Lemma preceded_app_none seen p q evs evs' :
  occurrences q evs = 0%nat -> occurrences p evs = 0%nat ->
  preceded seen p q (evs ++ evs') = preceded seen p q evs'.
Proof.
  revert seen. induction evs as [|e evs IH]; intros seen Hq Hp; cbn in *; [done|].
  destruct (q e); [discriminate|]. destruct (p e); [discriminate|].
  cbn. rewrite orb_false_r. by apply IH.
Qed.

(** ** The renderer's other branches and its failures *)

(** X1: for a readable file whose extension is [.less], with a Less module
    that loads, [renderCss] calls its [render] with the file's content and
    the options [filename] = the file path, [javascriptEnabled] = true and
    [paths] = the job's include paths (undefined included), and completes
    with the [css] of its output or with its error; nothing else is called
    but the file reader and the import of [less]. *)
Theorem renderCss_less env filePath basePath incl w content engine :
  path.extname filePath = ".less" ->
  readFile env filePath "utf8" = Normal content ->
  less env = Normal engine ->
  let o := {| Less.filename := filePath; Less.javascriptEnabled := true;
              Less.paths := incl |} in
  renderCss env filePath basePath incl w =
    (Completion_map Less.css (Less.render engine content o),
     logged w [EvReadFile filePath "utf8"; EvImport "less";
               EvLessRender content o]).
Proof.
  intros Hext Hread Hless o. unfold renderCss.
  erewrite run_bind_normal; [|by rewrite run_call, Hread].
  rewrite Hext. change (String.eqb ".less" ".sass" || String.eqb ".less" ".scss")
    with false. change (String.eqb ".less" ".less") with true. cbv iota.
  run_async. rewrite Hless. cbn.
  fold o. destruct (Less.render engine content o); same_world.
Qed.

(** [grid.less] on a machine with every engine. *)
Lemma renderCss_less_witness :
  let o := {| Less.filename := "/project/src/grid.less";
              Less.javascriptEnabled := true; Less.paths := None |} in
  path.extname "/project/src/grid.less" = ".less" /\
  readFile Fixture.full "/project/src/grid.less" "utf8" =
    Normal "@w: 10px; .g{width:@w}" /\
  less Fixture.full = Normal Scenario.a_less /\
  renderCss Fixture.full "/project/src/grid.less" "/project" None Scenario.w0 =
    (Normal "@w: 10px; .g{width:@w}",
     logged Scenario.w0 [EvReadFile "/project/src/grid.less" "utf8";
                         EvImport "less";
                         EvLessRender "@w: 10px; .g{width:@w}" o]).
Proof.
  cbv zeta. split; [reflexivity|]. split; [reflexivity|]. split; [reflexivity|].
  exact (renderCss_less Fixture.full "/project/src/grid.less" "/project" None
           Scenario.w0 _ Scenario.a_less eq_refl eq_refl eq_refl).
Defined.

(** X2: when the module of the dialect's engine cannot be imported
    ([less] for [.less]; [stylus] for [.styl] and [.stylus]), [renderCss]
    rejects with the import's error right after the read and the import: no
    engine is called and the file's content is not returned as a fallback. *)
Theorem renderCss_engine_not_installed
    env filePath basePath incl w content module e :
  readFile env filePath "utf8" = Normal content ->
  (path.extname filePath = ".less" /\ module = "less" /\ less env = Throw e)
  \/ ((path.extname filePath = ".styl" \/ path.extname filePath = ".stylus")
      /\ module = "stylus" /\ stylus env = Throw e) ->
  renderCss env filePath basePath incl w =
    (Throw e, logged w [EvReadFile filePath "utf8"; EvImport module]).
Proof.
  intros Hread Hcase. unfold renderCss.
  erewrite run_bind_normal; [|by rewrite run_call, Hread].
  destruct Hcase as [(Hext & -> & Hmod) | (Hext & -> & Hmod)].
  - rewrite Hext.
    change (String.eqb ".less" ".sass" || String.eqb ".less" ".scss") with false.
    change (String.eqb ".less" ".less") with true. cbv iota.
    run_async. rewrite Hmod. same_world.
  - destruct (stylus_branch _ Hext) as (-> & -> & ->).
    run_async. rewrite Hmod. same_world.
Qed.

(** A machine without preprocessors, on a Less file and on a Stylus file. *)
Lemma renderCss_engine_not_installed_witness :
  readFile Fixture.bare "/project/src/grid.less" "utf8" =
    Normal "@w: 10px; .g{width:@w}" /\
  readFile Fixture.bare "/project/src/main.styl" "utf8" = Normal "h1{margin:0}" /\
  renderCss Fixture.bare "/project/src/grid.less" "/project" None Scenario.w0 =
    (Throw (Error "Cannot find module 'less'"),
     logged Scenario.w0 [EvReadFile "/project/src/grid.less" "utf8";
                         EvImport "less"]) /\
  renderCss Fixture.bare "/project/src/main.styl" "/project" (Some [])
      Scenario.w0 =
    (Throw (Error "Cannot find module 'stylus'"),
     logged Scenario.w0 [EvReadFile "/project/src/main.styl" "utf8";
                         EvImport "stylus"]).
Proof.
  split; [reflexivity|]. split; [reflexivity|]. split.
  - exact (renderCss_engine_not_installed Fixture.bare "/project/src/grid.less"
             "/project" None Scenario.w0 _ "less" _ eq_refl
             (or_introl (conj eq_refl (conj eq_refl eq_refl)))).
  - exact (renderCss_engine_not_installed Fixture.bare "/project/src/main.styl"
             "/project" (Some []) Scenario.w0 _ "stylus" _ eq_refl
             (or_intror (conj (or_introl eq_refl) (conj eq_refl eq_refl)))).
Defined.

(** X3: for a readable [.sass] or [.scss] file on a machine where neither
    [node-sass] nor [sass] loads, [renderCss] rejects with the error of the
    import of [sass] (the error of requiring [node-sass] is swallowed by the
    catch), after the read and the two load attempts; the tilde importer is
    not imported and nothing is compiled. *)
Theorem renderCss_sass_no_compiler env filePath basePath incl w content e1 e2 :
  path.extname filePath = ".sass" \/ path.extname filePath = ".scss" ->
  readFile env filePath "utf8" = Normal content ->
  node_sass env = Throw e1 ->
  sass env = Throw e2 ->
  renderCss env filePath basePath incl w =
    (Throw e2,
     logged w [EvReadFile filePath "utf8"; EvRequire "node-sass";
               EvImport "sass"]).
Proof.
  intros Hext Hread Hnode Hsass. unfold renderCss.
  erewrite run_bind_normal; [|by rewrite run_call, Hread].
  rewrite (sass_branch _ Hext).
  run_async. rewrite Hnode. cbn. rewrite Hsass. same_world.
Qed.

(** [vars.scss] on a machine without preprocessors. *)
Lemma renderCss_sass_no_compiler_witness :
  (path.extname "/project/src/vars.scss" = ".sass" \/
   path.extname "/project/src/vars.scss" = ".scss") /\
  readFile Fixture.bare "/project/src/vars.scss" "utf8" =
    Normal "$c: red; a{color:$c}" /\
  node_sass Fixture.bare = Throw (Error "Cannot find module 'node-sass'") /\
  sass Fixture.bare = Throw (Error "Cannot find module 'sass'") /\
  renderCss Fixture.bare "/project/src/vars.scss" "/project" None Scenario.w0 =
    (Throw (Error "Cannot find module 'sass'"),
     logged Scenario.w0 [EvReadFile "/project/src/vars.scss" "utf8";
                         EvRequire "node-sass"; EvImport "sass"]).
Proof.
  split; [right; reflexivity|]. split; [reflexivity|]. split; [reflexivity|].
  split; [reflexivity|].
  exact (renderCss_sass_no_compiler Fixture.bare "/project/src/vars.scss"
           "/project" None Scenario.w0 _ _ _ (or_intror eq_refl)
           eq_refl eq_refl eq_refl).
Defined.

(** X4: for a readable [.sass] or [.scss] file on a machine where a Sass
    compiler loads but the tilde importer does not, [renderCss] rejects with
    the error of importing [node-sass-tilde-importer], and the compiler's
    [renderSync] is never called. *)
Theorem renderCss_sass_no_importer env filePath basePath incl w content e :
  path.extname filePath = ".sass" \/ path.extname filePath = ".scss" ->
  readFile env filePath "utf8" = Normal content ->
  (exists c, node_sass env = Normal c) \/ (exists c, sass env = Normal c) ->
  node_sass_tilde_importer env = Throw e ->
  exists evs,
    renderCss env filePath basePath incl w = (Throw e, logged w evs) /\
    occurrences is_engine evs = 0%nat /\
    last evs = Some (EvImport "node-sass-tilde-importer").
Proof.
  intros Hext Hread Hcompiler Himp. unfold renderCss.
  erewrite run_bind_normal; [|by rewrite run_call, Hread].
  rewrite (sass_branch _ Hext).
  destruct (node_sass env) as [c1|e1] eqn:Hnode.
  - exists [EvReadFile filePath "utf8"; EvRequire "node-sass";
            EvImport "node-sass-tilde-importer"].
    split; [|done]. run_async. rewrite Himp. same_world.
  - destruct Hcompiler as [[c Hc] | [c Hc]]; [discriminate Hc|].
    exists [EvReadFile filePath "utf8"; EvRequire "node-sass"; EvImport "sass";
            EvImport "node-sass-tilde-importer"].
    split; [|done]. run_async. rewrite Hc, Himp. same_world.
Qed.

(** [vars.scss] with [sass] installed and the importer missing. *)
Lemma renderCss_sass_no_importer_witness :
  (path.extname "/project/src/vars.scss" = ".sass" \/
   path.extname "/project/src/vars.scss" = ".scss") /\
  readFile Fixture.no_importer "/project/src/vars.scss" "utf8" =
    Normal "$c: red; a{color:$c}" /\
  sass Fixture.no_importer = Normal Scenario.a_sass /\
  node_sass_tilde_importer Fixture.no_importer =
    Throw (Error "Cannot find module 'node-sass-tilde-importer'") /\
  exists evs,
    renderCss Fixture.no_importer "/project/src/vars.scss" "/project" None
        Scenario.w0 =
      (Throw (Error "Cannot find module 'node-sass-tilde-importer'"),
       logged Scenario.w0 evs) /\
    occurrences is_engine evs = 0%nat /\
    last evs = Some (EvImport "node-sass-tilde-importer").
Proof.
  split; [right; reflexivity|]. split; [reflexivity|]. split; [reflexivity|].
  split; [reflexivity|].
  exact (renderCss_sass_no_importer Fixture.no_importer
           "/project/src/vars.scss" "/project" None Scenario.w0 _ _
           (or_intror eq_refl) eq_refl
           (or_intror (ex_intro _ Scenario.a_sass eq_refl)) eq_refl).
Defined.

(** X5: for a readable [.styl] or [.stylus] file and a Stylus module that
    loads, a job without [styleIncludePaths] makes [renderCss] reject with a
    TypeError (the spread of undefined into the search paths), after the
    read and the import; the engine never renders. *)
Theorem renderCss_stylus_without_include_paths
    env filePath basePath w content engine :
  path.extname filePath = ".styl" \/ path.extname filePath = ".stylus" ->
  readFile env filePath "utf8" = Normal content ->
  stylus env = Normal engine ->
  exists message,
    renderCss env filePath basePath None w =
      (Throw (TypeError message),
       logged w [EvReadFile filePath "utf8"; EvImport "stylus"]).
Proof.
  intros Hext Hread Hstylus. eexists. unfold renderCss.
  erewrite run_bind_normal; [|by rewrite run_call, Hread].
  destruct (stylus_branch _ Hext) as (-> & -> & ->).
  run_async. rewrite Hstylus. same_world.
Qed.

(** [main.styl] in a job that leaves the include paths out. *)
Lemma renderCss_stylus_without_include_paths_witness :
  (path.extname "/project/src/main.styl" = ".styl" \/
   path.extname "/project/src/main.styl" = ".stylus") /\
  readFile Fixture.full "/project/src/main.styl" "utf8" = Normal "h1{margin:0}" /\
  stylus Fixture.full = Normal Scenario.a_stylus /\
  exists message,
    renderCss Fixture.full "/project/src/main.styl" "/project" None Scenario.w0 =
      (Throw (TypeError message),
       logged Scenario.w0 [EvReadFile "/project/src/main.styl" "utf8";
                           EvImport "stylus"]).
Proof.
  split; [left; reflexivity|]. split; [reflexivity|]. split; [reflexivity|].
  exact (renderCss_stylus_without_include_paths Fixture.full
           "/project/src/main.styl" "/project" Scenario.w0 _ Scenario.a_stylus
           (or_introl eq_refl) eq_refl eq_refl).
Defined.

(** ** The job: render, then optimize *)

(** X6: whatever the job, the collaborators and the outcome, [processCss]
    leaves the reply port, the signal buffer and the sleepers as they were,
    and none of its calls is a post, a close, an atomic addition or a
    notification: replying is the handler's business alone. *)
Theorem processCss_leaves_reply_alone env o w :
  port (snd (processCss env o w)) = port w /\
  signal (snd (processCss env o w)) = signal w /\
  waiters (snd (processCss env o w)) = waiters w /\
  exists evs,
    log (snd (processCss env o w)) = (log w ++ evs)%list /\
    occurrences is_post evs = 0%nat /\ occurrences is_close evs = 0%nat /\
    occurrences is_add evs = 0%nat /\ occurrences is_notify evs = 0%nat.
Proof.
  destruct (processCss_quiet env o w) as (evs & -> & Hevs).
  repeat (split; [reflexivity|]). exists evs. split; [reflexivity|].
  by apply occurrences_protocol_none.
Qed.

(** X7: a job that [processCss] fulfils has been rendered without error,
    and the pipeline has run exactly once, as the last call, on the rendered
    css; the result carries the pipeline's css and its warnings, each turned
    into a string, in the pipeline's order. *)
Theorem processCss_fulfilled_inv env o w r w' :
  processCss env o w = (Normal r, w') ->
  exists rendered res evs,
    let lazy := optimizeCss (filePath o) rendered (browserslistData o)
                  (cssUrl o) in
    renderCss env (filePath o) (basePath o) (styleIncludePaths o) w =
      (Normal rendered, logged w evs) /\
    occurrences is_pipeline evs = 0%nat /\
    postcss_run env lazy = Normal res /\
    w' = logged w (evs ++ [EvPostcssProcess lazy]) /\
    css r = Postcss.css res /\
    warnings r = map Postcss.toString (Postcss.warnings res).
Proof.
  unfold processCss, await_lazy. intros Hrun.
  destruct (renderCss_never_pipeline env (filePath o) (basePath o)
              (styleIncludePaths o) w) as (evs & Hw1 & Hevs).
  destruct (renderCss env (filePath o) (basePath o) (styleIncludePaths o) w)
    as [[rendered|e] w1] eqn:Hrender; cbn in Hw1; subst w1.
  - erewrite run_bind_normal in Hrun; [|exact Hrender].
    unfold mbind, Async_bind in Hrun. rewrite run_call in Hrun.
    destruct (postcss_run env _) as [res|e] eqn:Hpost; [|discriminate Hrun].
    rewrite run_ret in Hrun. injection Hrun as <- <-.
    exists rendered, res, evs. cbv zeta.
    rewrite logged_logged. by repeat split.
  - erewrite run_bind_throw in Hrun; [|exact Hrender]. discriminate Hrun.
Qed.

(** The job for [app.css] on a machine whose pipeline warns twice. *)
Lemma processCss_fulfilled_inv_witness :
  let o := Scenario.job "/project/src/app.css" in
  let r := {| css := "a{color:red}";
              warnings := ["postcss-url: missing asset";
                           "cssnano: dropped rule"] |} in
  processCss Fixture.full o Scenario.w0 =
    (Normal r, snd (processCss Fixture.full o Scenario.w0)) /\
  exists rendered res evs,
    let lazy := optimizeCss (filePath o) rendered (browserslistData o)
                  (cssUrl o) in
    renderCss Fixture.full (filePath o) (basePath o) (styleIncludePaths o)
        Scenario.w0 =
      (Normal rendered, logged Scenario.w0 evs) /\
    occurrences is_pipeline evs = 0%nat /\
    postcss_run Fixture.full lazy = Normal res /\
    snd (processCss Fixture.full o Scenario.w0) =
      logged Scenario.w0 (evs ++ [EvPostcssProcess lazy]) /\
    css r = Postcss.css res /\
    warnings r = map Postcss.toString (Postcss.warnings res).
Proof.
  cbv zeta. split; [reflexivity|].
  exact (processCss_fulfilled_inv Fixture.full
           (Scenario.job "/project/src/app.css") Scenario.w0 _ _ eq_refl).
Defined.

(** X8: when rendering fails, [processCss] rejects with the renderer's
    error in the world the renderer left: the pipeline is not run, there is
    no partial output. *)
Theorem processCss_render_failure env o w e w1 :
  renderCss env (filePath o) (basePath o) (styleIncludePaths o) w =
    (Throw e, w1) ->
  processCss env o w = (Throw e, w1) /\
  exists evs, w1 = logged w evs /\ occurrences is_pipeline evs = 0%nat.
Proof.
  intros Hrender. split.
  - unfold processCss. by apply run_bind_throw.
  - destruct (renderCss_never_pipeline env (filePath o) (basePath o)
                (styleIncludePaths o) w) as (evs & Hw1 & Hevs).
    rewrite Hrender in Hw1. by exists evs.
Qed.

(** The Sass file with the missing partial. *)
Lemma processCss_render_failure_witness :
  let o := Scenario.job "/project/src/theme.scss" in
  let e := Error "Can't find stylesheet to import." in
  let w1 := snd (renderCss Fixture.full (filePath o) (basePath o)
                   (styleIncludePaths o) Scenario.w0) in
  renderCss Fixture.full (filePath o) (basePath o) (styleIncludePaths o)
      Scenario.w0 = (Throw e, w1) /\
  processCss Fixture.full o Scenario.w0 = (Throw e, w1) /\
  exists evs, w1 = logged Scenario.w0 evs /\ occurrences is_pipeline evs = 0%nat.
Proof.
  cbv zeta. split; [reflexivity|].
  exact (processCss_render_failure Fixture.full
           (Scenario.job "/project/src/theme.scss") Scenario.w0 _ _ eq_refl).
Defined.

(** X9: when rendering succeeds and the pipeline fails, [processCss]
    rejects with the pipeline's error, the pipeline having been handed the
    rendered css once; the rendered css is not returned in its place. *)
Theorem processCss_optimize_failure env o w rendered w1 e :
  renderCss env (filePath o) (basePath o) (styleIncludePaths o) w =
    (Normal rendered, w1) ->
  postcss_run env (optimizeCss (filePath o) rendered (browserslistData o)
                     (cssUrl o)) = Throw e ->
  processCss env o w =
    (Throw e,
     logged w1 [EvPostcssProcess
                  (optimizeCss (filePath o) rendered (browserslistData o)
                     (cssUrl o))]) /\
  Postcss.input (optimizeCss (filePath o) rendered (browserslistData o)
                   (cssUrl o)) = rendered.
Proof.
  intros Hrender Hpost. split; [|reflexivity].
  unfold processCss, await_lazy.
  erewrite run_bind_normal; [|exact Hrender].
  apply run_bind_throw. by rewrite run_call, Hpost.
Qed.

(** [app.css] on the machine whose pipeline fails. *)
Lemma processCss_optimize_failure_witness :
  let o := Scenario.job "/project/src/app.css" in
  let lazy := optimizeCss (filePath o) "a{color:red}" (browserslistData o)
                (cssUrl o) in
  let w1 := logged Scenario.w0 [EvReadFile "/project/src/app.css" "utf8"] in
  renderCss Fixture.broken_pipeline (filePath o) (basePath o)
      (styleIncludePaths o) Scenario.w0 = (Normal "a{color:red}", w1) /\
  postcss_run Fixture.broken_pipeline lazy =
    Throw (Error "CssSyntaxError: Unknown word") /\
  processCss Fixture.broken_pipeline o Scenario.w0 =
    (Throw (Error "CssSyntaxError: Unknown word"),
     logged w1 [EvPostcssProcess lazy]) /\
  Postcss.input lazy = "a{color:red}".
Proof.
  cbv zeta. split; [reflexivity|]. split; [reflexivity|].
  exact (processCss_optimize_failure Fixture.broken_pipeline
           (Scenario.job "/project/src/app.css") Scenario.w0 _ _ _
           eq_refl eq_refl).
Defined.



(** ** The virtual "to" path *)

Lemma append_cons c s t : String c s ++ t = String c (s ++ t).
Proof. reflexivity. Qed.

Lemma append_assoc s t u : (s ++ t) ++ u = s ++ t ++ u.
Proof.
  induction s as [|c s IH]; [reflexivity|].
  rewrite !append_cons. by rewrite IH.
Qed.

Lemma substring_full s : String.substring 0 (String.length s) s = s.
Proof. rewrite <- (append_empty_r s) at 2. apply substring_prefix. Qed.

Lemma substring_skip a n r :
  String.substring (String.length a) n (a ++ r) = String.substring 0 n r.
Proof. induction a as [|c a IH]; [reflexivity|]. rewrite append_cons. exact IH. Qed.

Lemma substring_skip_add a k n r :
  String.substring (String.length a + k) n (a ++ r) = String.substring k n r.
Proof. induction a as [|c a IH]; [reflexivity|]. rewrite append_cons. exact IH. Qed.

Lemma prefix_split pat s :
  String.prefix pat s = true -> exists b, s = pat ++ b.
Proof.
  revert s. induction pat as [|c pat IH]; intros s H.
  - by exists s.
  - destruct s as [|d s]; [discriminate H|]. cbn in H.
    destruct (ascii_dec c d) as [->|]; [|discriminate H].
    destruct (IH s H) as [b ->]. by exists b.
Qed.

Lemma indexOf_unfold s pat :
  JsString.indexOf s pat =
    if String.prefix pat s then Some 0%nat
    else match s with
         | EmptyString => None
         | String _ rest => option_map S (JsString.indexOf rest pat)
         end.
Proof. by destruct s. Qed.

(** What [replace] does when the pattern occurs: the text before the first
    occurrence, the replacement, the text after it. *)
Lemma replace_split s pat by_ i :
  JsString.indexOf s pat = Some i ->
  exists a b,
    s = a ++ pat ++ b /\ String.length a = i /\
    JsString.replace s pat by_ = a ++ by_ ++ b.
Proof.
  intros H.
  assert (exists a b, s = a ++ pat ++ b /\ String.length a = i) as (a & b & -> & Hi).
  { revert i H.
    induction s as [|c s IH]; intros i H; rewrite indexOf_unfold in H.
    - destruct (String.prefix pat "") eqn:Hp; [|discriminate H].
      injection H as <-. destruct (prefix_split _ _ Hp) as [b Hb].
      by exists "", b.
    - destruct (String.prefix pat (String c s)) eqn:Hp.
      + injection H as <-. destruct (prefix_split _ _ Hp) as [b Hb].
        by exists "", b.
      + destruct (JsString.indexOf s pat) as [j|] eqn:Hj; [|discriminate H].
        cbn in H. injection H as <-. destruct (IH j eq_refl) as (a & b & -> & Ha).
        exists (String c a), b. split; [reflexivity|]. cbn. by rewrite Ha. }
  exists a, b. split; [reflexivity|]. split; [exact Hi|].
  unfold JsString.replace, JsString.slice. rewrite H. subst i.
  rewrite Nat.sub_0_r, substring_prefix.
  rewrite substring_skip_add, substring_skip.
  rewrite !length_append.
  replace (String.length a + (String.length pat + String.length b)
           - (String.length a + String.length pat))%nat
    with (String.length b) by lia.
  by rewrite substring_full.
Qed.

(** Replacing a text by itself changes nothing. *)
Lemma replace_same s pat : JsString.replace s pat pat = s.
Proof.
  destruct (JsString.indexOf s pat) as [i|] eqn:H.
  - destruct (replace_split s pat pat i H) as (a & b & Hs & _ & ->). by rewrite Hs.
  - unfold JsString.replace. by rewrite H.
Qed.

(** The empty pattern is found at the very start. *)
Lemma replace_empty_pattern s by_ : JsString.replace s "" by_ = by_ ++ s.
Proof.
  assert (JsString.indexOf s "" = Some 0%nat) as H by (by destruct s).
  destruct (replace_split s "" by_ 0%nat H) as (a & b & Hs & Ha & ->).
  destruct a; [|discriminate Ha]. by rewrite Hs.
Qed.

(** X11: for a path that is a stem followed by its extension, where the
    extension's text does not occur in the path before the extension itself,
    the "to" path handed to the pipeline is the stem followed by [.css], and
    the "from" path is the path. *)
Theorem optimizeCss_to_unique_extension stem ext css browsers cssUrl :
  path.extname (stem ++ ext) = ext ->
  JsString.indexOf (stem ++ ext) ext = Some (String.length stem) ->
  let o := Postcss.opts (optimizeCss (stem ++ ext) css browsers cssUrl) in
  Postcss.to o = stem ++ ".css" /\ Postcss.from o = stem ++ ext.
Proof.
  intros Hext Hfirst o. split; [|reflexivity].
  by apply optimizeCss_to_swaps_extension.
Qed.

(** [/project/src/main.styl] becomes [/project/src/main.css]. *)
Lemma optimizeCss_to_unique_extension_witness :
  let o := Postcss.opts (optimizeCss ("/project/src/main" ++ ".styl") "h1{}"
                           ["defaults"] None) in
  path.extname ("/project/src/main" ++ ".styl") = ".styl" /\
  JsString.indexOf ("/project/src/main" ++ ".styl") ".styl" =
    Some (String.length "/project/src/main") /\
  Postcss.to o = "/project/src/main" ++ ".css" /\
  Postcss.from o = "/project/src/main" ++ ".styl".
Proof.
  cbv zeta. split; [reflexivity|]. split; [reflexivity|].
  exact (optimizeCss_to_unique_extension "/project/src/main" ".styl" "h1{}"
           ["defaults"] None eq_refl eq_refl).
Defined.

(** X12: for a path without extension ([path.extname] gives the empty
    string) the "to" path is [.css] put in FRONT of the whole path: the
    empty pattern is replaced at position 0. *)
Theorem optimizeCss_to_without_extension filePath css browsers cssUrl :
  path.extname filePath = "" ->
  Postcss.to (Postcss.opts (optimizeCss filePath css browsers cssUrl)) =
    ".css" ++ filePath.
Proof.
  intros Hext. unfold optimizeCss. cbn [Postcss.to Postcss.opts].
  rewrite Hext. apply replace_empty_pattern.
Qed.

(** [/project/README] becomes [.css/project/README]. *)
Lemma optimizeCss_to_without_extension_witness :
  path.extname "/project/README" = "" /\
  Postcss.to (Postcss.opts (optimizeCss "/project/README" "a{}" ["defaults"]
                              None)) =
    ".css/project/README".
Proof.
  split; [reflexivity|].
  exact (optimizeCss_to_without_extension "/project/README" "a{}" ["defaults"]
           None eq_refl).
Defined.

(** X13: for a file whose extension already is [.css], the "to" path is
    the "from" path: the pipeline is told to write where it read, wherever
    the text [.css] occurs in the path. *)
Theorem optimizeCss_to_of_css_file filePath css browsers cssUrl :
  path.extname filePath = ".css" ->
  let o := Postcss.opts (optimizeCss filePath css browsers cssUrl) in
  Postcss.to o = filePath /\ Postcss.to o = Postcss.from o.
Proof.
  intros Hext o. assert (Postcss.to o = filePath) as H.
  { subst o. unfold optimizeCss. cbn [Postcss.to Postcss.opts].
    rewrite Hext. apply replace_same. }
  split; [exact H | by rewrite H].
Qed.

(** A css file under a directory whose name contains [.css]. *)
Lemma optimizeCss_to_of_css_file_witness :
  let o := Postcss.opts (optimizeCss "/work/ui.css/src/app.css" "a{}"
                           ["defaults"] None) in
  path.extname "/work/ui.css/src/app.css" = ".css" /\
  Postcss.to o = "/work/ui.css/src/app.css" /\
  Postcss.to o = Postcss.from o.
Proof.
  cbv zeta. split; [reflexivity|].
  exact (optimizeCss_to_of_css_file "/work/ui.css/src/app.css" "a{}"
           ["defaults"] None eq_refl).
Defined.

(** ** The handler on every job *)

Lemma on_message_no_cell env o w r w1 :
  processCss env o w = (Normal r, w1) ->
  signal w1 !! 0%nat = None ->
  on_message env o w =
    (Throw (RangeError "Invalid atomic access index"),
     {| port := {| queue := if closed (port w1) then queue (port w1)
                            else queue (port w1) ++ [r];
                   closed := true |};
        signal := signal w1;
        waiters := waiters w1;
        log := log w1 ++ [EvPostMessage r; EvPortClose] |}).
Proof.
  intros H Hv. unfold on_message. erewrite run_bind_normal; [|exact H].
  unfold mbind, Async_bind, MessagePort_.postMessage, MessagePort_.close,
    Atomics.add. cbn.
  rewrite Hv. f_equal. f_equal.
  - by destruct (closed (port w1)).
  - by rewrite <- !app_assoc.
Qed.

(** The three ways a run of the handler can go, with what it logs after
    the calls [evs] of [processCss]. *)
Lemma on_message_cases env o w :
  exists evs tail,
    snd (processCss env o w) = logged w evs /\
    occurrences is_protocol evs = 0%nat /\
    log (snd (on_message env o w)) = (log w ++ evs ++ tail)%list /\
    (tail = [] \/
     (exists r, tail = [EvPostMessage r; EvPortClose]) \/
     (exists r, tail = [EvPostMessage r; EvPortClose;
                        EvAtomicsAdd 0 1; EvAtomicsNotify 0])).
Proof.
  destruct (processCss_quiet env o w) as (evs & Hw & Hevs).
  exists evs.
  destruct (processCss env o w) as [[r|e] w1] eqn:Hrun; cbn in Hw; subst w1.
  - destruct (signal w !! 0%nat) as [v|] eqn:Hv.
    + exists [EvPostMessage r; EvPortClose; EvAtomicsAdd 0 1; EvAtomicsNotify 0].
      rewrite (on_message_fulfilled _ _ _ _ _ v Hrun) by exact Hv.
      cbn. rewrite <- app_assoc. eauto 10.
    + exists [EvPostMessage r; EvPortClose].
      rewrite (on_message_no_cell _ _ _ _ _ Hrun) by exact Hv.
      cbn. rewrite <- app_assoc. eauto 10.
  - exists []. rewrite (on_message_rejected _ _ _ _ _ Hrun).
    cbn. rewrite app_nil_r. eauto 10.
Qed.

(** X14: in every run of the handler, whatever the job and however it
    ends, the result is posted at most once, the port closed at most once,
    the signal incremented at most once and notified at most once; an
    increment only ever comes after the post, and a notification only after
    the increment. *)
Theorem on_message_protocol_discipline env o w :
  exists evs,
    log (snd (on_message env o w)) = (log w ++ evs)%list /\
    (occurrences is_post evs <= 1)%nat /\
    (occurrences is_close evs <= 1)%nat /\
    (occurrences is_add evs <= 1)%nat /\
    (occurrences is_notify evs <= 1)%nat /\
    only_after is_post is_add evs = true /\
    only_after is_add is_notify evs = true /\
    only_after is_post is_close evs = true.
Proof.
  destruct (on_message_cases env o w) as (evs & tail & _ & Hevs & Hlog & Htail).
  destruct (occurrences_protocol_none _ Hevs) as (Hpost & Hclose & Hadd & Hnotify).
  exists (evs ++ tail)%list. split; [exact Hlog|].
  unfold only_after. rewrite !occurrences_app, !preceded_app_none by done.
  rewrite Hpost, Hclose, Hadd, Hnotify.
  destruct Htail as [-> | [[r ->] | [r ->]]]; cbn; repeat split; lia.
Qed.

(** X15: when the job succeeds on a port that is open and a buffer that
    has a cell 0, the handler leaves on the port's queue exactly one more
    message, the result of [processCss], behind the messages that were
    there, and leaves the port closed. *)
Theorem on_message_posts_the_result env o w r w1 v :
  processCss env o w = (Normal r, w1) ->
  signal w !! 0%nat = Some v ->
  closed (port w) = false ->
  fst (on_message env o w) = Normal tt /\
  queue (port (snd (on_message env o w))) = (queue (port w) ++ [r])%list /\
  closed (port (snd (on_message env o w))) = true.
Proof.
  intros Hrun Hv Hopen.
  destruct (processCss_quiet env o w) as (evs & Hw & _).
  rewrite Hrun in Hw; cbn in Hw; subst w1.
  rewrite (on_message_fulfilled _ _ _ _ _ v Hrun) by exact Hv.
  cbn. by rewrite Hopen.
Qed.

(** The job for [app.css]: one message on the fresh port. *)
Lemma on_message_posts_the_result_witness :
  let o := Scenario.job "/project/src/app.css" in
  let r := {| css := "a{color:red}"; warnings := [] |} in
  processCss Scenario.env o Scenario.w0 =
    (Normal r, snd (processCss Scenario.env o Scenario.w0)) /\
  signal Scenario.w0 !! 0%nat = Some 0 /\
  closed (port Scenario.w0) = false /\
  fst (on_message Scenario.env o Scenario.w0) = Normal tt /\
  queue (port (snd (on_message Scenario.env o Scenario.w0))) =
    (queue (port Scenario.w0) ++ [r])%list /\
  closed (port (snd (on_message Scenario.env o Scenario.w0))) = true.
Proof.
  cbv zeta. split; [reflexivity|]. split; [reflexivity|]. split; [reflexivity|].
  exact (on_message_posts_the_result Scenario.env
           (Scenario.job "/project/src/app.css") Scenario.w0 _ _ 0
           eq_refl eq_refl eq_refl).
Defined.

(** X16: when the job succeeds and the buffer has a cell 0, the handler
    leaves no agent asleep on cell 0, whatever value the cell held: the
    main thread is not blocked any more. *)
Theorem on_message_success_wakes env o w r w1 v :
  processCss env o w = (Normal r, w1) ->
  signal w !! 0%nat = Some v ->
  (0%nat ∉ waiters (snd (on_message env o w))) /\
  main_thread_blocked (snd (on_message env o w)) = false.
Proof.
  intros Hrun Hv.
  destruct (processCss_quiet env o w) as (evs & Hw & _).
  rewrite Hrun in Hw; cbn in Hw; subst w1.
  assert (0%nat ∉ waiters (snd (on_message env o w))) as Hawake.
  { rewrite (on_message_fulfilled _ _ _ _ _ v Hrun) by exact Hv.
    cbn. rewrite list_elem_of_filter. tauto. }
  split; [exact Hawake|]. unfold main_thread_blocked.
  by apply andb_false_intro2, bool_decide_eq_false_2.
Qed.

(** The job for [main.styl] on a buffer of three cells, with sleepers on
    cells 0 and 2. *)
Lemma on_message_success_wakes_witness :
  let o := Scenario.job "/project/src/main.styl" in
  processCss Fixture.full o Fixture.w_wide =
    (Normal {| css := "h1{margin:0}";
               warnings := ["postcss-url: missing asset";
                            "cssnano: dropped rule"] |},
     snd (processCss Fixture.full o Fixture.w_wide)) /\
  signal Fixture.w_wide !! 0%nat = Some 0 /\
  (0%nat ∉ waiters (snd (on_message Fixture.full o Fixture.w_wide))) /\
  main_thread_blocked (snd (on_message Fixture.full o Fixture.w_wide)) = false.
Proof.
  cbv zeta. split; [reflexivity|]. split; [reflexivity|].
  exact (on_message_success_wakes Fixture.full
           (Scenario.job "/project/src/main.styl") Fixture.w_wide _ _ 0
           eq_refl eq_refl).
Defined.

(** X17: when [processCss] rejects, the handler rejects with the same
    error and does nothing else: the port (its queue and its open state),
    the signal buffer and the sleepers are exactly as the job found them. *)
Theorem on_message_failure_frame env o w e w1 :
  processCss env o w = (Throw e, w1) ->
  on_message env o w = (Throw e, w1) /\
  port w1 = port w /\ signal w1 = signal w /\ waiters w1 = waiters w.
Proof.
  intros Hrun. split; [by apply on_message_rejected|].
  destruct (processCss_quiet env o w) as (evs & Hw & _).
  rewrite Hrun in Hw; cbn in Hw. by subst w1.
Qed.

(** The pipeline fails on [app.css]: the sleepers on cells 0 and 2 stay. *)
Lemma on_message_failure_frame_witness :
  let o := Scenario.job "/project/src/app.css" in
  let e := Error "CssSyntaxError: Unknown word" in
  let w1 := snd (processCss Fixture.broken_pipeline o Fixture.w_wide) in
  processCss Fixture.broken_pipeline o Fixture.w_wide = (Throw e, w1) /\
  on_message Fixture.broken_pipeline o Fixture.w_wide = (Throw e, w1) /\
  port w1 = port Fixture.w_wide /\ signal w1 = signal Fixture.w_wide /\
  waiters w1 = waiters Fixture.w_wide.
Proof.
  cbv zeta. split; [reflexivity|].
  exact (on_message_failure_frame Fixture.broken_pipeline
           (Scenario.job "/project/src/app.css") Fixture.w_wide _ _ eq_refl).
Defined.

(** X18: in every run the handler touches cell 0 of the signal buffer and
    nothing else of it: the buffer keeps its length, every other cell keeps
    its value, and an agent asleep on another cell stays asleep. *)
Theorem on_message_touches_cell_0_only env o w :
  length (signal (snd (on_message env o w))) = length (signal w) /\
  forall i, i <> 0%nat ->
    signal (snd (on_message env o w)) !! i = signal w !! i /\
    (i ∈ waiters (snd (on_message env o w)) <-> i ∈ waiters w).
Proof.
  destruct (processCss_quiet env o w) as (evs & Hw & _).
  destruct (processCss env o w) as [[r|e] w1] eqn:Hrun; cbn in Hw; subst w1.
  - destruct (signal w !! 0%nat) as [v|] eqn:Hv.
    + rewrite (on_message_fulfilled _ _ _ _ _ v Hrun) by exact Hv. cbn.
      split; [by rewrite length_insert|]. intros i Hi.
      split; [by rewrite list_lookup_insert_ne|].
      rewrite list_elem_of_filter. tauto.
    + rewrite (on_message_no_cell _ _ _ _ _ Hrun) by exact Hv. by cbn.
  - by rewrite (on_message_rejected _ _ _ _ _ Hrun).
Qed.

(** On the buffer of three cells, cells 1 and 2 and the sleeper on cell 2
    are left alone. *)
Lemma on_message_touches_cell_0_only_witness :
  let w2 := snd (on_message Fixture.full (Scenario.job "/project/src/app.css")
                   Fixture.w_wide) in
  signal w2 = [1; 7; 9] /\
  length (signal w2) = length (signal Fixture.w_wide) /\
  signal w2 !! 2%nat = signal Fixture.w_wide !! 2%nat /\
  (2%nat ∈ waiters w2 <-> 2%nat ∈ waiters Fixture.w_wide).
Proof.
  cbv zeta. split; [reflexivity|].
  split.
  - exact (proj1 (on_message_touches_cell_0_only Fixture.full
                    (Scenario.job "/project/src/app.css") Fixture.w_wide)).
  - exact (proj2 (on_message_touches_cell_0_only Fixture.full
                    (Scenario.job "/project/src/app.css") Fixture.w_wide)
             2%nat ltac:(discriminate)).
Defined.

(** X19: when the job succeeds but the signal buffer has no cell 0, the
    handler has already posted the result and closed the port when the
    atomic addition throws a RangeError: the handler rejects, nothing is
    incremented and no notification is issued. *)
Theorem on_message_without_cell env o w r w1 :
  processCss env o w = (Normal r, w1) ->
  signal w !! 0%nat = None ->
  exists message evs,
    fst (on_message env o w) = Throw (RangeError message) /\
    log (snd (on_message env o w)) =
      (log w ++ evs ++ [EvPostMessage r; EvPortClose])%list /\
    occurrences is_protocol evs = 0%nat /\
    closed (port (snd (on_message env o w))) = true /\
    signal (snd (on_message env o w)) = signal w /\
    waiters (snd (on_message env o w)) = waiters w.
Proof.
  intros Hrun Hv.
  destruct (processCss_quiet env o w) as (evs & Hw & Hevs).
  rewrite Hrun in Hw; cbn in Hw; subst w1.
  rewrite (on_message_no_cell _ _ _ _ _ Hrun) by exact Hv.
  eexists. exists evs. cbn. rewrite <- app_assoc. by repeat split.
Qed.

(** The job for [app.css] handed an empty buffer. *)
Lemma on_message_without_cell_witness :
  let o := Scenario.job "/project/src/app.css" in
  let r := {| css := "a{color:red}"; warnings := [] |} in
  processCss Scenario.env o Fixture.w_no_cell =
    (Normal r, snd (processCss Scenario.env o Fixture.w_no_cell)) /\
  signal Fixture.w_no_cell !! 0%nat = None /\
  exists message evs,
    fst (on_message Scenario.env o Fixture.w_no_cell) =
      Throw (RangeError message) /\
    log (snd (on_message Scenario.env o Fixture.w_no_cell)) =
      (log Fixture.w_no_cell ++ evs ++ [EvPostMessage r; EvPortClose])%list /\
    occurrences is_protocol evs = 0%nat /\
    closed (port (snd (on_message Scenario.env o Fixture.w_no_cell))) = true /\
    signal (snd (on_message Scenario.env o Fixture.w_no_cell)) =
      signal Fixture.w_no_cell /\
    waiters (snd (on_message Scenario.env o Fixture.w_no_cell)) =
      waiters Fixture.w_no_cell.
Proof.
  cbv zeta. split; [reflexivity|]. split; [reflexivity|].
  exact (on_message_without_cell Scenario.env
           (Scenario.job "/project/src/app.css") Fixture.w_no_cell _ _
           eq_refl eq_refl).
Defined.

(** ** How many calls a job makes *)

Lemma renderCss_call_budget env filePath basePath incl w :
  exists evs,
    snd (renderCss env filePath basePath incl w) =
      logged w (EvReadFile filePath "utf8" :: evs) /\
    occurrences is_read evs = 0%nat /\
    occurrences is_pipeline evs = 0%nat /\
    (occurrences is_engine evs <= 1)%nat /\
    (occurrences is_module_load evs <= 3)%nat.
Proof.
  unfold renderCss. run_async.
  repeat match goal with
  | |- context [match ?x with _ => _ end] =>
      match type of x with
      | Completion _ => destruct x
      | bool => destruct x
      | option _ => destruct x
      end; cbn
  end;
  eexists; (split; [same_world | cbn; repeat split; lia]).
Qed.

(** X20: every run of [processCss] reads exactly one file, the job's
    file, as utf8 and before anything else; it loads at most three modules,
    calls a preprocessor engine at most once and runs the pipeline at most
    once. *)
Theorem processCss_call_budget env o w :
  exists evs,
    snd (processCss env o w) =
      logged w (EvReadFile (filePath o) "utf8" :: evs) /\
    occurrences is_read evs = 0%nat /\
    (occurrences is_module_load evs <= 3)%nat /\
    (occurrences is_engine evs <= 1)%nat /\
    (occurrences is_pipeline evs <= 1)%nat.
Proof.
  destruct (renderCss_call_budget env (filePath o) (basePath o)
              (styleIncludePaths o) w) as (evs & Hw & Hread & Hpipe & Heng & Hmod).
  unfold processCss, await_lazy, mbind, Async_bind.
  destruct (renderCss env (filePath o) (basePath o) (styleIncludePaths o) w)
    as [[rendered|e] w1]; cbn in Hw; subst w1.
  - rewrite run_call.
    exists (evs ++ [EvPostcssProcess (optimizeCss (filePath o) rendered
                                        (browserslistData o) (cssUrl o))])%list.
    split.
    + destruct (postcss_run env _); same_world.
    + rewrite !occurrences_app. cbn. repeat split; lia.
  - exists evs. repeat split; try done; lia.
Qed.
